(** * Booking Slots API: the booking ledger and the availability calculator

    A shallow embedding of [src/main.py] (the SQLAlchemy models of
    [src/models.py] and the Pydantic schemas of [src/schemas.py] are the same
    declarations as the ones repeated at the top of [main.py]).

    Modelling decisions, fixed here once:
    - a naive [datetime] is its number of microseconds since
      0001-01-01T00:00:00, a [Z] in the range [0 .. DATETIME_MAX]; datetime
      arithmetic raises [OverflowError] outside that range, as Python's does;
      timestamps carrying a UTC offset are outside the model;
    - an integer parameter of a statement is bound by the driver only when
      it is a signed 64-bit integer, and the binding raises [OverflowError]
      otherwise; the integer columns of a table hold 64-bit values only, so
      a parameter that equals a value of the column it is compared with is
      one the driver binds;
    - a table is the list of its rows in insertion (rowid) order; the primary
      key handed out by the store on insert is one more than the largest key
      in the table (1 for an empty table), as SQLite does for an
      [INTEGER PRIMARY KEY];
    - a route handler is a computation in a state-and-exception monad over a
      database session; the session records the statements sent to the
      store, so that "no store access" is a statement about that record;
    - [db.add] / [db.commit] / [db.refresh] of one handler are one statement:
      no handler raises between a write and its commit. *)

From Stdlib Require Import ZArith List String Bool Lia Permutation Sorted.
Import ListNotations.
Open Scope string_scope.
Open Scope list_scope.
Open Scope Z_scope.

(** ** Naive datetimes *)

Module Datetime.

Definition datetime := Z.
Definition timedelta := Z.

Definition US_PER_MINUTE : Z := 60000000.
Definition US_PER_DAY : Z := 86400000000.

(** [date.max] is 9999-12-31, the day of index 3652058 counted from
    0001-01-01 (index 0). *)
Definition DATE_MAX : Z := 3652058.

(** [datetime.max] is 9999-12-31T23:59:59.999999. *)
Definition DATETIME_MAX : Z := (DATE_MAX + 1) * US_PER_DAY - 1.

(** [timedelta.max.days] *)
Definition TIMEDELTA_MAX_DAYS : Z := 999999999.

Inductive exn := OverflowError.

Inductive exc (A : Type) :=
| Return (a : A)
| Raise (e : exn).
Arguments Return {A} a.
Arguments Raise {A} e.

(** [timedelta(minutes=m)]: normalised to days, seconds and microseconds;
    refused when the number of days has a magnitude above 999999999. *)
Definition timedelta_minutes (m : Z) : exc timedelta :=
  let us := m * US_PER_MINUTE in
  if Z.abs (us / US_PER_DAY) <=? TIMEDELTA_MAX_DAYS
  then Return us else Raise OverflowError.

(** [t + delta] on a datetime: refused when the result leaves
    [datetime.min .. datetime.max]. *)
Definition add (t : datetime) (delta : timedelta) : exc datetime :=
  let r := t + delta in
  if (0 <=? r) && (r <=? DATETIME_MAX) then Return r else Raise OverflowError.

(** [datetime.combine(d, t)] for a date [d] (day index) and a time of day
    [t] given in minutes, which is all that the format [%H:%M] can yield. *)
Definition combine (d : Z) (t : Z) : datetime :=
  d * US_PER_DAY + t * US_PER_MINUTE.

(** What [strptime(_, "%Y-%m-%d").date()] can return. *)
Definition date_in_range (d : Z) : Prop := 0 <= d <= DATE_MAX.

(** What [strptime(_, "%H:%M").time()] can return, in minutes. *)
Definition time_in_range (t : Z) : Prop := 0 <= t < 1440.

End Datetime.

Import Datetime.

(** ** Models (SQLAlchemy) *)

Module Resource.
Record t := mk {
  id : Z;
  name : string;
  type : string;
  (** [Column(Boolean, default=True)]: a nullable column *)
  is_active : option bool
}.
End Resource.

Module Booking.
Record t := mk {
  id : Z;
  resource_id : Z;
  customer_name : string;
  start_at : datetime;
  end_at : datetime;
  status : string;
  created_at : datetime
}.

(** [booking.status = s] *)
Definition set_status (s : string) (b : t) : t :=
  mk (id b) (resource_id b) (customer_name b) (start_at b) (end_at b) s
     (created_at b).
End Booking.

(** ** Schemas (Pydantic) *)

Module BookingCreate.
Record t := mk {
  resource_id : Z;
  customer_name : string;
  start_at : datetime;
  end_at : datetime
}.

(** The [field_validator('end_at')]: [values_data_start_at] is
    [values.data.get('start_at')], present when [start_at] itself
    validated. [None] stands for the [ValueError]. *)
Definition check_dates (v : datetime) (values_data_start_at : option datetime)
  : option datetime :=
  match values_data_start_at with
  | Some s => if v <=? s then None else Some v
  | None => Some v
  end.

(** Validation of a request body whose four fields are already of the
    declared types: fields are validated in declaration order, so
    [start_at] is in [values.data] when [end_at] is checked. *)
Definition model_validate (rid : Z) (cn : string) (s e : datetime)
  : option t :=
  match check_dates e (Some s) with
  | Some v => Some (mk rid cn s v)
  | None => None
  end.
End BookingCreate.

(** ** The database session *)

Record Store := mkStore {
  resources : list Resource.t;
  bookings : list Booking.t
}.

(** The statements a handler sends to the store. *)
Inductive statement :=
| SelectResourceById (rid : Z)
| SelectBookingById (bid : Z)
| SelectConflict (rid : Z) (s e : datetime)
| SelectBookings
| SelectWindow (rid : Z) (day_start day_end : datetime)
| InsertBooking (bid : Z)
| UpdateBookingStatus (bid : Z).

Record Session := mkSession {
  store : Store;
  sent : list statement
}.

Definition fresh_session (st : Store) : Session := mkSession st [].

(** What a request ends in. *)
Inductive HTTPResult (A : Type) :=
| Ok (body : A)
| HTTPException (status_code : Z) (detail : string)
| RequestValidationError
| Unhandled (e : exn).
Arguments Ok {A} body.
Arguments HTTPException {A} status_code detail.
Arguments RequestValidationError {A}.
Arguments Unhandled {A} e.

Definition Handler (A : Type) : Type := Session -> HTTPResult A * Session.

Definition ret {A} (a : A) : Handler A := fun db => (Ok a, db).

Definition bind {A B} (m : Handler A) (k : A -> Handler B) : Handler B :=
  fun db =>
    match m db with
    | (Ok a, db') => k a db'
    | (HTTPException c d, db') => (HTTPException c d, db')
    | (RequestValidationError, db') => (RequestValidationError, db')
    | (Unhandled e, db') => (Unhandled e, db')
    end.

Definition raise {A} (status_code : Z) (detail : string) : Handler A :=
  fun db => (HTTPException status_code detail, db).

Notation "x <- m ;; k" := (bind m (fun x => k))
  (at level 61, m at next level, right associativity).

(** The integers the driver binds. *)
Definition INT64_MIN : Z := - 2 ^ 63.
Definition INT64_MAX : Z := 2 ^ 63 - 1.

Definition bindable (n : Z) : bool := (INT64_MIN <=? n) && (n <=? INT64_MAX).

(** Binding [n] for a comparison with an integer column: refused outside the
    64-bit range, which no value held in the column leaves. *)
Definition accepts (column : list Z) (n : Z) : bool :=
  bindable n || existsb (Z.eqb n) column.
Arguments accepts : simpl never.

(** A read: when its integer parameters are bound ([accepted]) the statement
    is recorded and the tables are left alone; otherwise the driver raises
    [OverflowError] before anything is sent. *)
Definition query {A} (stmt : statement) (accepted : Store -> bool)
  (read : Store -> A) : Handler A :=
  fun db =>
    if accepted (store db)
    then (Ok (read (store db)), mkSession (store db) (sent db ++ [stmt]))
    else (Unhandled OverflowError, db).

Definition resource_ids (st : Store) : list Z := map Resource.id (resources st).
Definition booking_ids (st : Store) : list Z := map Booking.id (bookings st).
Definition booked_resource_ids (st : Store) : list Z :=
  map Booking.resource_id (bookings st).

(** A committed write; the integers it binds were bound by the lookup that
    precedes it in the handler. *)
Definition execute (stmt : statement) (write : Store -> Store) : Handler unit :=
  fun db => (Ok tt, mkSession (write (store db)) (sent db ++ [stmt])).

(** ** Queries *)

Definition active : string := "active".
Definition canceled : string := "canceled".

(** [Booking.start_at < e, Booking.end_at > s]: the half-open overlap test,
    the stored row on the left. *)
Definition overlaps (b : Booking.t) (s e : datetime) : bool :=
  (Booking.start_at b <? e) && (Booking.end_at b >? s).

(** The filter of the conflict query of [create_booking]. *)
Definition conflicts_with (rid : Z) (s e : datetime) (b : Booking.t) : bool :=
  (Booking.resource_id b =? rid) && (Booking.status b =? active)%string
  && overlaps b s e.

Definition resource_by_id (rid : Z) (st : Store) : option Resource.t :=
  find (fun r => Resource.id r =? rid) (resources st).

Definition booking_by_id (bid : Z) (st : Store) : option Booking.t :=
  find (fun b => Booking.id b =? bid) (bookings st).

Definition first_conflict (rid : Z) (s e : datetime) (st : Store)
  : option Booking.t :=
  find (conflicts_with rid s e) (bookings st).

(** The key the store assigns to an inserted row. *)
Definition next_id (bs : list Booking.t) : Z :=
  1 + fold_right Z.max 0 (map Booking.id bs).

Definition insert_booking (b : Booking.t) (st : Store) : Store :=
  mkStore (resources st) (bookings st ++ [b]).

(** [UPDATE bookings SET status = s WHERE id = bid] *)
Definition update_status (bid : Z) (s : string) (st : Store) : Store :=
  mkStore (resources st)
          (map (fun b => if Booking.id b =? bid then Booking.set_status s b else b)
               (bookings st)).

(** ** Routes: bookings *)

(** [not resource or not resource.is_active] *)
Definition missing_or_inactive (resource : option Resource.t) : bool :=
  match resource with
  | None => true
  | Some r => match Resource.is_active r with
              | Some true => false
              | _ => true
              end
  end.

(** [create_booking]; [now] is the reading of [datetime.utcnow] taken by the
    column default of [created_at] at insertion. *)
Definition create_booking (booking : BookingCreate.t) (now : datetime)
  : Handler Booking.t :=
  resource <- query (SelectResourceById (BookingCreate.resource_id booking))
                    (fun st => accepts (resource_ids st)
                                       (BookingCreate.resource_id booking))
                    (resource_by_id (BookingCreate.resource_id booking)) ;;
  if missing_or_inactive resource
  then raise 400 "Resource not found or inactive"
  else
    conflict <- query (SelectConflict (BookingCreate.resource_id booking)
                                      (BookingCreate.start_at booking)
                                      (BookingCreate.end_at booking))
                      (fun st => accepts (resource_ids st)
                                         (BookingCreate.resource_id booking))
                      (first_conflict (BookingCreate.resource_id booking)
                                      (BookingCreate.start_at booking)
                                      (BookingCreate.end_at booking)) ;;
    match conflict with
    | Some _ => raise 409 "Time slot already booked"
    | None =>
        fun db =>
          let new_booking :=
            Booking.mk (next_id (bookings (store db)))
                       (BookingCreate.resource_id booking)
                       (BookingCreate.customer_name booking)
                       (BookingCreate.start_at booking)
                       (BookingCreate.end_at booking)
                       active now in
          (_ <- execute (InsertBooking (Booking.id new_booking))
                        (insert_booking new_booking) ;;
           ret new_booking) db
    end.

(** [POST /bookings]: the body is validated into a [BookingCreate] before the
    handler is called; a validation error is answered without calling it. *)
Definition post_bookings (rid : Z) (cn : string) (s e : datetime)
  (now : datetime) : Handler Booking.t :=
  match BookingCreate.model_validate rid cn s e with
  | None => fun db => (RequestValidationError, db)
  | Some booking => create_booking booking now
  end.

(** [cancel_booking] *)
Definition cancel_booking (booking_id : Z) : Handler Booking.t :=
  booking <- query (SelectBookingById booking_id)
                   (fun st => accepts (booking_ids st) booking_id)
                   (booking_by_id booking_id) ;;
  match booking with
  | None => raise 404 "Booking not found"
  | Some b =>
      _ <- execute (UpdateBookingStatus (Booking.id b))
                   (update_status (Booking.id b) canceled) ;;
      (* db.refresh(booking): the row is read back by its key *)
      fun db =>
        match booking_by_id (Booking.id b) (store db) with
        | Some b' => (Ok b', db)
        | None => (Ok (Booking.set_status canceled b), db)
        end
  end.

(** [get_bookings]: each filter is applied under Python's truth test of its
    parameter ([None], [0] and the empty string are false; a datetime is
    always true), then the rows are ordered by [start_at]. *)
Fixpoint insert_by_start_at (b : Booking.t) (l : list Booking.t)
  : list Booking.t :=
  match l with
  | [] => [b]
  | x :: rest =>
      if Booking.start_at b <=? Booking.start_at x
      then b :: x :: rest
      else x :: insert_by_start_at b rest
  end.

(** [ORDER BY start_at], rows of equal [start_at] kept in table order. *)
Definition order_by_start_at (l : list Booking.t) : list Booking.t :=
  fold_right insert_by_start_at [] l.

Definition filter_resource_id (resource_id : option Z) (q : list Booking.t) :=
  match resource_id with
  | Some rid =>
      if rid =? 0 then q else filter (fun b => Booking.resource_id b =? rid) q
  | None => q
  end.

Definition filter_date_from (date_from : option datetime) (q : list Booking.t) :=
  match date_from with
  | Some d => filter (fun b => Booking.start_at b >=? d) q
  | None => q
  end.

Definition filter_date_to (date_to : option datetime) (q : list Booking.t) :=
  match date_to with
  | Some d => filter (fun b => Booking.end_at b <=? d) q
  | None => q
  end.

Definition filter_status (status : option string) (q : list Booking.t) :=
  match status with
  | Some s =>
      if (s =? "")%string then q
      else filter (fun b => (Booking.status b =? s)%string) q
  | None => q
  end.

Definition select_bookings (resource_id : option Z)
  (date_from date_to : option datetime) (status : option string)
  (st : Store) : list Booking.t :=
  let query0 := bookings st in
  let query1 := filter_resource_id resource_id query0 in
  let query2 := filter_date_from date_from query1 in
  let query3 := filter_date_to date_to query2 in
  let query4 := filter_status status query3 in
  order_by_start_at query4.

Definition get_bookings (resource_id : option Z)
  (date_from date_to : option datetime) (status : option string)
  : Handler (list Booking.t) :=
  query SelectBookings
        (fun st => match resource_id with
                   | Some rid =>
                       (rid =? 0) || accepts (booked_resource_ids st) rid
                   | None => true
                   end)
        (select_bookings resource_id date_from date_to status).

(** ** Routes: availability *)

Module Slot.
(** The dictionary with keys ["start"] and ["end"]; the two datetimes stand
    for their [isoformat()] renderings, which determine them. *)
Record t := mk { start : datetime; end_ : datetime }.
End Slot.

Module Availability.
Record t := mk {
  resource_id : Z;
  date : string;
  available_slots : list Slot.t
}.
End Availability.

(** The bookings loaded by [get_availability]. *)
Definition window_bookings (rid : Z) (day_start day_end : datetime)
  (st : Store) : list Booking.t :=
  order_by_start_at
    (filter (fun b => (Booking.resource_id b =? rid)
                      && (Booking.status b =? active)%string
                      && (Booking.end_at b >? day_start)
                      && (Booking.start_at b <? day_end))
            (bookings st)).

(** The inner [for] loop with its [break]. *)
Fixpoint slot_is_free (bs : list Booking.t) (current_slot slot_end : datetime)
  : bool :=
  match bs with
  | [] => true
  | b :: rest =>
      if (current_slot <? Booking.end_at b) && (slot_end >? Booking.start_at b)
      then false
      else slot_is_free rest current_slot slot_end
  end.

(** How the [while] loop ends, with the number of completed iterations. *)
Inductive loop_outcome :=
| Exits (available_slots : list Slot.t) (iterations : nat)
| Raises (e : exn) (iterations : nat)
| OutOfFuel.

Definition try {A} (x : exc A) (iterations : nat) (k : A -> loop_outcome)
  : loop_outcome :=
  match x with
  | Return a => k a
  | Raise e => Raises e iterations
  end.

(** [current_slot + timedelta(minutes=slot_minutes)] *)
Definition plus_minutes (current_slot : datetime) (slot_minutes : Z)
  : exc datetime :=
  match timedelta_minutes slot_minutes with
  | Return delta => add current_slot delta
  | Raise e => Raise e
  end.

(** The [while] loop of [get_availability]; one unit of fuel per evaluation
    of its condition. *)
Fixpoint while_slots (fuel : nat) (slot_minutes : Z) (day_end : datetime)
  (bs : list Booking.t) (current_slot : datetime)
  (available_slots : list Slot.t) (iterations : nat) : loop_outcome :=
  match fuel with
  | O => OutOfFuel
  | S fuel' =>
      try (plus_minutes current_slot slot_minutes) iterations (fun bound =>
      if bound <=? day_end then
        try (plus_minutes current_slot slot_minutes) iterations (fun slot_end =>
        let is_free := slot_is_free bs current_slot slot_end in
        let available_slots' :=
          if is_free
          then available_slots ++ [Slot.mk current_slot slot_end]
          else available_slots in
        try (plus_minutes current_slot slot_minutes) iterations (fun next =>
        while_slots fuel' slot_minutes day_end bs next available_slots'
                    (S iterations)))
      else Exits available_slots iterations)
  end.

Section Availability.

(** [datetime.strptime(_, "%Y-%m-%d").date()] as a day index and
    [datetime.strptime(_, "%H:%M").time()] as a minute of the day; [None]
    stands for the [ValueError]. *)
Variable strptime_date : string -> option Z.
Variable strptime_time : string -> option Z.

(** [get_availability]; [None] when the fuel does not suffice. The window
    query binds [resource_id]: when the driver refuses it, the handler ends
    in [OverflowError] before the loop. *)
Definition get_availability (resource_id : Z) (date : string)
  (slot_minutes : Z) (work_start work_end : string) (fuel : nat)
  (db : Session) : option (HTTPResult Availability.t * Session) :=
  match strptime_date date, strptime_time work_start,
        strptime_time work_end with
  | Some target_date, Some start_t, Some end_t =>
      let day_start := combine target_date start_t in
      let day_end := combine target_date end_t in
      if accepts (booked_resource_ids (store db)) resource_id then
        let bs := window_bookings resource_id day_start day_end (store db) in
        let db' := mkSession (store db)
                     (sent db ++ [SelectWindow resource_id day_start day_end]) in
        match while_slots fuel slot_minutes day_end bs day_start [] 0 with
        | Exits available_slots _ =>
            Some (Ok (Availability.mk resource_id date available_slots), db')
        | Raises e _ => Some (Unhandled e, db')
        | OutOfFuel => None
        end
      else Some (Unhandled OverflowError, db)
  | _, _, _ => Some (HTTPException 400 "Invalid date/time format", db)
  end.

(** The number of completed iterations of the loop in that call. *)
Definition loop_of (resource_id : Z) (target_date start_t end_t : Z)
  (slot_minutes : Z) (fuel : nat) (st : Store) : loop_outcome :=
  let day_start := combine target_date start_t in
  let day_end := combine target_date end_t in
  while_slots fuel slot_minutes day_end
    (window_bookings resource_id day_start day_end st) day_start [] 0.

End Availability.

(** ** Sequences of requests *)

Inductive request :=
| CreateBooking (rid : Z) (cn : string) (s e : datetime) (now : datetime)
| CancelBooking (bid : Z).

(** Each request runs in a session of its own on the shared store. *)
Definition serve (st : Store) (r : request) : Store :=
  match r with
  | CreateBooking rid cn s e now =>
      store (snd (post_bookings rid cn s e now (fresh_session st)))
  | CancelBooking bid =>
      store (snd (cancel_booking bid (fresh_session st)))
  end.

Definition serve_all (rs : list request) (st : Store) : Store :=
  fold_left serve rs st.

(** ** The contract in the words of the specification *)

(** The core invariant: no two active bookings of one resource overlap. *)
Definition no_double_booking (st : Store) : Prop :=
  forall b1 b2,
    In b1 (bookings st) -> In b2 (bookings st) ->
    Booking.id b1 <> Booking.id b2 ->
    Booking.resource_id b1 = Booking.resource_id b2 ->
    Booking.status b1 = active -> Booking.status b2 = active ->
    ~ (Booking.start_at b1 < Booking.end_at b2 /\
       Booking.start_at b2 < Booking.end_at b1).

(** The invariant carried along a sequence of requests: the primary key is
    a key, and the core invariant holds. *)
Definition well_kept (st : Store) : Prop :=
  NoDup (map Booking.id (bookings st)) /\ no_double_booking st.

(** "NotFound and InvalidState are distinguishable by the caller": a request
    against a store without the resource and one against a store where the
    resource is inactive never get the same answer. *)
Definition missing_and_inactive_distinguishable : Prop :=
  forall (st1 st2 : Store) rid cn s e now r,
    s < e ->
    resource_by_id rid st1 = None ->
    resource_by_id rid st2 = Some r -> Resource.is_active r = Some false ->
    fst (post_bookings rid cn s e now (fresh_session st1)) <>
    fst (post_bookings rid cn s e now (fresh_session st2)).

(** A booking satisfies every provided filter of ListBookings. *)
Definition satisfies (resource_id : option Z)
  (date_from date_to : option datetime) (status : option string)
  (b : Booking.t) : bool :=
  match resource_id with Some rid => Booking.resource_id b =? rid | None => true end
  && match date_from with Some d => d <=? Booking.start_at b | None => true end
  && match date_to with Some d => Booking.end_at b <=? d | None => true end
  && match status with Some s => (Booking.status b =? s)%string | None => true end.

(** "Exactly the bookings satisfying every provided filter, ordered ascending
    by start_at". *)
Definition lists_exactly (resource_id : option Z)
  (date_from date_to : option datetime) (status : option string)
  (st : Store) (result : list Booking.t) : Prop :=
  Permutation result
    (filter (satisfies resource_id date_from date_to status) (bookings st)) /\
  StronglySorted (fun a b => Booking.start_at a <= Booking.start_at b) result.

(** A filter value as the handler takes it: a false value is no filter. *)
Definition effective_id (resource_id : option Z) : option Z :=
  match resource_id with
  | Some rid => if rid =? 0 then None else Some rid
  | None => None
  end.

Definition effective_status (status : option string) : option string :=
  match status with
  | Some s => if (s =? "")%string then None else Some s
  | None => None
  end.

(** The candidate slots: the consecutive intervals of [slot_minutes] minutes
    from [day_start] on that end at or before [day_end]. *)
Definition full_slots (day_start day_end : datetime) (slot_minutes : Z) : Z :=
  (day_end - day_start) / (slot_minutes * US_PER_MINUTE).

Definition candidate (day_start : datetime) (slot_minutes : Z) (i : nat)
  : Slot.t :=
  Slot.mk (day_start + Z.of_nat i * (slot_minutes * US_PER_MINUTE))
          (day_start + (Z.of_nat i + 1) * (slot_minutes * US_PER_MINUTE)).

Definition candidate_slots (day_start day_end : datetime) (slot_minutes : Z)
  : list Slot.t :=
  map (candidate day_start slot_minutes)
      (seq 0 (Z.to_nat (full_slots day_start day_end slot_minutes))).

(** A candidate is free when it overlaps no booking of [bs] under the
    half-open test. *)
Definition free_of (bs : list Booking.t) (c : Slot.t) : bool :=
  forallb (fun b => negb ((Slot.start c <? Booking.end_at b)
                          && (Booking.start_at b <? Slot.end_ c))) bs.

(** The sum formed by the last evaluation of the loop condition: the end of
    the first slot that no longer fits. *)
Definition last_bound (day_start day_end : datetime) (slot_minutes : Z) : Z :=
  day_start
  + (Z.max 0 (full_slots day_start day_end slot_minutes) + 1)
    * (slot_minutes * US_PER_MINUTE).

(** ** Sample data *)

Definition jan_1_2024 : Z := 738885.
Definition dec_31_9999 : Z := DATE_MAX.

Definition at_ (d h m : Z) : datetime := combine d (h * 60 + m).

Definition room : Resource.t := Resource.mk 1 "Room A" "room" (Some true).
Definition closed_room : Resource.t := Resource.mk 2 "Room B" "room" (Some false).

Definition sample_store : Store := mkStore [room; closed_room] [].

Definition morning : Booking.t :=
  Booking.mk 1 1 "Ann" (at_ jan_1_2024 10 0) (at_ jan_1_2024 11 0) active
             (at_ jan_1_2024 8 0).

Definition booked_store : Store := mkStore [room; closed_room] [morning].

(** The two [strptime] formats on the literals used below. *)
Definition strptime_date_sample (s : string) : option Z :=
  if (s =? "2024-01-01")%string then Some jan_1_2024
  else if (s =? "9999-12-31")%string then Some dec_31_9999
  else None.

Definition strptime_time_sample (s : string) : option Z :=
  if (s =? "09:00")%string then Some (9 * 60)
  else if (s =? "11:00")%string then Some (11 * 60)
  else if (s =? "18:00")%string then Some (18 * 60)
  else None.

(** ** Routes: resources *)

Module ResourceCreate.
Record t := mk {
  name : string;
  type : string;
  is_active : bool
}.
End ResourceCreate.

Module ResourceUpdate.
(** Each field is left out of the body ([None]) or set, possibly to null
    ([Some None]): [model_dump(exclude_unset=True)] keeps the fields that
    were set. *)
Record t := mk {
  name : option (option string);
  is_active : option (option bool)
}.
End ResourceUpdate.

(** What the store raises at commit. *)
Inductive commit_error := IntegrityError.

(** The key the store assigns to an inserted resource. *)
Definition next_resource_id (rs : list Resource.t) : Z :=
  1 + fold_right Z.max 0 (map Resource.id rs).

(** [create_resource]. The two routes that write resources are modelled on
    the store itself. *)
Definition create_resource (resource : ResourceCreate.t) (st : Store)
  : HTTPResult Resource.t * Store :=
  let db_resource :=
    Resource.mk (next_resource_id (resources st))
                (ResourceCreate.name resource)
                (ResourceCreate.type resource)
                (Some (ResourceCreate.is_active resource)) in
  (Ok db_resource, mkStore (resources st ++ [db_resource]) (bookings st)).

(** [get_resource]; the value is the row the handler returns. *)
Definition get_resource (resource_id : Z) : Handler Resource.t :=
  res <- query (SelectResourceById resource_id)
               (fun st => accepts (resource_ids st) resource_id)
               (resource_by_id resource_id) ;;
  match res with
  | None => raise 404 "Resource not found"
  | Some r => ret r
  end.

(** [UPDATE resources SET name = n, is_active = a WHERE id = rid] *)
Definition update_columns (rid : Z) (n : string) (a : option bool) (st : Store)
  : Store :=
  mkStore (map (fun r => if Resource.id r =? rid
                         then Resource.mk (Resource.id r) n (Resource.type r) a
                         else r)
               (resources st))
          (bookings st).

(** [update_resource]: the lookup binds [resource_id]; the set fields are
    assigned to the row in turn, then committed. [name] is [nullable=False]: a row whose name was set to null
    is refused at commit with [IntegrityError], and the session is closed
    without a write. *)
Definition update_resource (resource_id : Z) (update_data : ResourceUpdate.t)
  (st : Store) : (commit_error + HTTPResult Resource.t) * Store :=
  if negb (accepts (resource_ids st) resource_id)
  then (inr (Unhandled OverflowError), st)
  else
  match resource_by_id resource_id st with
  | None => (inr (HTTPException 404 "Resource not found"), st)
  | Some res =>
      let name' := match ResourceUpdate.name update_data with
                   | Some value => value
                   | None => Some (Resource.name res)
                   end in
      let is_active' := match ResourceUpdate.is_active update_data with
                        | Some value => value
                        | None => Resource.is_active res
                        end in
      match name' with
      | None => (inl IntegrityError, st)
      | Some n =>
          (inr (Ok (Resource.mk (Resource.id res) n (Resource.type res)
                                is_active')),
           update_columns (Resource.id res) n is_active' st)
      end
  end.

(** ** Sequences of requests over the whole API *)

Inductive api_request :=
| PostResource (resource : ResourceCreate.t)
| PatchResource (rid : Z) (update_data : ResourceUpdate.t)
| PostBooking (rid : Z) (cn : string) (s e : datetime) (now : datetime)
| PostCancel (bid : Z).

Definition serve_api (st : Store) (r : api_request) : Store :=
  match r with
  | PostResource resource => snd (create_resource resource st)
  | PatchResource rid update_data => snd (update_resource rid update_data st)
  | PostBooking rid cn s e now => serve st (CreateBooking rid cn s e now)
  | PostCancel bid => serve st (CancelBooking bid)
  end.

Definition serve_api_all (rs : list api_request) (st : Store) : Store :=
  fold_left serve_api rs st.

Definition empty_store : Store := mkStore [] [].

(** What every stored row satisfies along such a sequence. *)
Definition rows_well_formed (st : Store) : Prop :=
  NoDup (map Resource.id (resources st)) /\
  (forall b, In b (bookings st) ->
     Booking.start_at b < Booking.end_at b /\
     (Booking.status b = active \/ Booking.status b = canceled) /\
     exists r, In r (resources st) /\ Resource.id r = Booking.resource_id b).

(** The resource of that id is there and active. *)
Definition bookable (rid : Z) (st : Store) : Prop :=
  exists r, resource_by_id rid st = Some r /\ Resource.is_active r = Some true.

(** The half-open overlap test between a slot and a booking. *)
Definition slot_overlaps (c : Slot.t) (b : Booking.t) : Prop :=
  Slot.start c < Booking.end_at b /\ Booking.start_at b < Slot.end_ c.

(** ** More sample data *)

Definition afternoon : Booking.t :=
  Booking.mk 2 1 "Cy" (at_ jan_1_2024 11 0) (at_ jan_1_2024 12 0) active
             (at_ jan_1_2024 8 0).

Definition busy_store : Store := mkStore [room; closed_room] [morning; afternoon].

(** * Properties *)

(** ** Running the handlers *)

Lemma model_validate_ok (rid : Z) (cn : string) (s e : datetime) :
  s < e ->
  BookingCreate.model_validate rid cn s e = Some (BookingCreate.mk rid cn s e).
Proof.
  intros Hlt. unfold BookingCreate.model_validate, BookingCreate.check_dates.
  destruct (Z.leb_spec e s); [lia | reflexivity].
Qed.

Lemma model_validate_refused (rid : Z) (cn : string) (s e : datetime) :
  e <= s -> BookingCreate.model_validate rid cn s e = None.
Proof.
  intros Hle. unfold BookingCreate.model_validate, BookingCreate.check_dates.
  destruct (Z.leb_spec e s); [reflexivity | lia].
Qed.

Lemma accepts_range (column : list Z) (n : Z) :
  INT64_MIN <= n <= INT64_MAX -> accepts column n = true.
Proof.
  intros [Hlo Hhi]. unfold accepts, bindable.
  apply Z.leb_le in Hlo, Hhi. now rewrite Hlo, Hhi.
Qed.

Lemma accepts_in (column : list Z) (n : Z) :
  In n column -> accepts column n = true.
Proof.
  intros Hin. unfold accepts. apply orb_true_iff. right.
  apply existsb_exists. exists n. split; [exact Hin | apply Z.eqb_refl].
Qed.

Lemma accepts_false (column : list Z) (n : Z) :
  accepts column n = false <->
  ~ (INT64_MIN <= n <= INT64_MAX) /\ ~ In n column.
Proof.
  split.
  - intros H. split; intros H'.
    + now rewrite (accepts_range column n H') in H.
    + now rewrite (accepts_in column n H') in H.
  - intros [Hr Hc]. unfold accepts, bindable.
    apply orb_false_iff. split.
    + destruct (Z.leb_spec INT64_MIN n), (Z.leb_spec n INT64_MAX);
        cbn; try reflexivity. exfalso. apply Hr. lia.
    + destruct (existsb (Z.eqb n) column) eqn:E; [| reflexivity].
      apply existsb_exists in E as (x & Hx & Heq).
      apply Z.eqb_eq in Heq. subst x. contradiction.
Qed.

(** On a table whose column holds 64-bit values only, as every table of the
    store does, binding is refused exactly outside the 64-bit range. *)
Lemma accepts_bindable (column : list Z) (n : Z) :
  Forall (fun k => bindable k = true) column -> accepts column n = bindable n.
Proof.
  intros Hall. unfold accepts. destruct (bindable n) eqn:E; [reflexivity |].
  cbn [orb]. destruct (existsb (Z.eqb n) column) eqn:Ex; [| reflexivity].
  apply existsb_exists in Ex as (x & Hx & Heq). apply Z.eqb_eq in Heq.
  subst x. rewrite Forall_forall in Hall. apply Hall in Hx. congruence.
Qed.

Lemma accepts_grows (column more : list Z) (n : Z) :
  accepts column n = true -> accepts (column ++ more) n = true.
Proof.
  unfold accepts. rewrite existsb_app, !orb_true_iff. tauto.
Qed.

Lemma resource_found_accepted (rid : Z) (st : Store) (r : Resource.t) :
  resource_by_id rid st = Some r -> accepts (resource_ids st) rid = true.
Proof.
  unfold resource_by_id. intros H. apply find_some in H as [Hin Hid].
  apply Z.eqb_eq in Hid. apply accepts_in. unfold resource_ids.
  rewrite <- Hid. now apply in_map.
Qed.

Lemma booking_found_accepted (bid : Z) (st : Store) (b : Booking.t) :
  booking_by_id bid st = Some b -> accepts (booking_ids st) bid = true.
Proof.
  unfold booking_by_id. intros H. apply find_some in H as [Hin Hid].
  apply Z.eqb_eq in Hid. apply accepts_in. unfold booking_ids.
  rewrite <- Hid. now apply in_map.
Qed.

(** The ways [create_booking] ends, with the session each leaves. *)
Lemma create_booking_run (booking : BookingCreate.t) (now : datetime)
  (db : Session) :
  let rid := BookingCreate.resource_id booking in
  let s := BookingCreate.start_at booking in
  let e := BookingCreate.end_at booking in
  let looked := sent db ++ [SelectResourceById rid] in
  let checked := looked ++ [SelectConflict rid s e] in
  create_booking booking now db =
    if accepts (resource_ids (store db)) rid then
      if missing_or_inactive (resource_by_id rid (store db))
      then (HTTPException 400 "Resource not found or inactive",
            mkSession (store db) looked)
      else match first_conflict rid s e (store db) with
           | Some _ => (HTTPException 409 "Time slot already booked",
                        mkSession (store db) checked)
           | None =>
               let nb := Booking.mk (next_id (bookings (store db))) rid
                           (BookingCreate.customer_name booking) s e active
                           now in
               (Ok nb, mkSession (insert_booking nb (store db))
                                 (checked ++ [InsertBooking (Booking.id nb)]))
           end
    else (Unhandled OverflowError, db).
Proof.
  unfold create_booking, bind, query, raise, execute, ret. cbn.
  destruct (accepts _ _) eqn:Hacc; [| reflexivity].
  destruct (missing_or_inactive _); [reflexivity |].
  cbn. rewrite Hacc. destruct (first_conflict _ _ _ _); reflexivity.
Qed.

Lemma missing_or_inactive_accepted (rid : Z) (st : Store) :
  missing_or_inactive (resource_by_id rid st) = false ->
  accepts (resource_ids st) rid = true.
Proof.
  unfold missing_or_inactive.
  destruct (resource_by_id rid st) as [r |] eqn:E; [| discriminate].
  intros _. exact (resource_found_accepted rid st r E).
Qed.

Lemma missing_or_inactive_true (resource : option Resource.t) :
  missing_or_inactive resource = true <->
  resource = None \/
  exists r, resource = Some r /\ Resource.is_active r <> Some true.
Proof.
  unfold missing_or_inactive. split.
  - destruct resource as [r |]; [| now left].
    intros H. right. exists r. split; [reflexivity |].
    destruct (Resource.is_active r) as [[|] |]; congruence.
  - intros [-> | (r & -> & Hr)]; [reflexivity |].
    destruct (Resource.is_active r) as [[|] |]; congruence.
Qed.

Lemma missing_or_inactive_false (resource : option Resource.t) :
  missing_or_inactive resource = false <->
  exists r, resource = Some r /\ Resource.is_active r = Some true.
Proof.
  unfold missing_or_inactive. split.
  - destruct resource as [r |]; [| discriminate].
    destruct (Resource.is_active r) as [[|] |] eqn:E; try discriminate.
    intros _. now exists r.
  - intros (r & -> & ->). reflexivity.
Qed.

Lemma conflicts_with_true (rid : Z) (s e : datetime) (b : Booking.t) :
  conflicts_with rid s e b = true <->
  Booking.resource_id b = rid /\ Booking.status b = active /\
  Booking.start_at b < e /\ Booking.end_at b > s.
Proof.
  unfold conflicts_with, overlaps.
  rewrite !andb_true_iff, Z.eqb_eq, String.eqb_eq, Z.ltb_lt, Z.gtb_gt.
  tauto.
Qed.

Lemma first_conflict_some (rid : Z) (s e : datetime) (st : Store) :
  (exists c, first_conflict rid s e st = Some c) <->
  exists b, In b (bookings st) /\
            Booking.resource_id b = rid /\ Booking.status b = active /\
            Booking.start_at b < e /\ Booking.end_at b > s.
Proof.
  unfold first_conflict. split.
  - intros (c & Hc). apply find_some in Hc as [Hin Hc].
    exists c. split; [exact Hin | now apply conflicts_with_true].
  - intros (b & Hin & Hb). apply conflicts_with_true in Hb.
    destruct (find _ _) as [c |] eqn:E; [now exists c |].
    eapply find_none in E; [| exact Hin]. congruence.
Qed.

Lemma first_conflict_none (rid : Z) (s e : datetime) (st : Store) :
  first_conflict rid s e st = None <->
  forall b, In b (bookings st) -> conflicts_with rid s e b = false.
Proof.
  unfold first_conflict. split.
  - intros H b Hin. eapply find_none in H; eauto.
  - intros H. destruct (find _ _) as [c |] eqn:E; [| reflexivity].
    apply find_some in E as [Hin Hc]. rewrite (H _ Hin) in Hc. discriminate.
Qed.

(** ** CreateBooking: input validation *)

(** C5. A request with [end_at <= start_at] is answered with the validation
    error whatever the store holds, and the session is handed back as it
    was: the tables are unchanged and no statement (no resource lookup, no
    conflict query) was sent. *)
Theorem create_booking_rejects_bad_dates
  (rid : Z) (cn : string) (s e now : datetime) (db : Session) :
  e <= s ->
  post_bookings rid cn s e now db = (RequestValidationError, db) /\
  store (snd (post_bookings rid cn s e now db)) = store db /\
  sent (snd (post_bookings rid cn s e now db)) = sent db.
Proof.
  intros Hle. unfold post_bookings.
  rewrite (model_validate_refused rid cn s e Hle). cbn. auto.
Qed.

Lemma create_booking_rejects_bad_dates_witness :
  at_ jan_1_2024 10 0 <= at_ jan_1_2024 11 0 /\
  post_bookings 1 "Bob" (at_ jan_1_2024 11 0) (at_ jan_1_2024 10 0)
                (at_ jan_1_2024 8 0) (fresh_session booked_store)
  = (RequestValidationError, fresh_session booked_store).
Proof.
  assert (H : at_ jan_1_2024 10 0 <= at_ jan_1_2024 11 0)
    by (vm_compute; discriminate).
  split; [exact H |].
  exact (proj1 (create_booking_rejects_bad_dates 1 "Bob" (at_ jan_1_2024 11 0)
                  (at_ jan_1_2024 10 0) (at_ jan_1_2024 8 0)
                  (fresh_session booked_store) H)).
Defined.

(** ** CreateBooking: the resource check *)

(** C4, as the specification states it, fails: a missing resource and an
    inactive one are answered with the very same exception. *)
Lemma missing_and_inactive_same_answer :
  fst (post_bookings 3 "Bob" (at_ jan_1_2024 10 0) (at_ jan_1_2024 11 0)
                     (at_ jan_1_2024 8 0) (fresh_session sample_store))
  = HTTPException 400 "Resource not found or inactive" /\
  fst (post_bookings 2 "Bob" (at_ jan_1_2024 10 0) (at_ jan_1_2024 11 0)
                     (at_ jan_1_2024 8 0) (fresh_session sample_store))
  = HTTPException 400 "Resource not found or inactive" /\
  ~ missing_and_inactive_distinguishable.
Proof.
  split; [reflexivity |]. split; [reflexivity |].
  intros H.
  apply (H (mkStore [] []) (mkStore [closed_room] []) 2 "Bob"
           (at_ jan_1_2024 10 0) (at_ jan_1_2024 11 0) (at_ jan_1_2024 8 0)
           closed_room);
    reflexivity.
Qed.

Lemma resource_missing_not_held (rid : Z) (st : Store) :
  resource_by_id rid st = None -> ~ In rid (resource_ids st).
Proof.
  unfold resource_by_id, resource_ids. intros H Hin.
  apply in_map_iff in Hin as (r & Hid & Hr).
  eapply find_none in H; [| exact Hr]. cbn in H.
  apply Z.eqb_neq in H. contradiction.
Qed.

(** C4, amended. On a request that passes validation, [create_booking]
    raises one and the same exception, 400 "Resource not found or inactive",
    when the resource is missing under a [resource_id] in the signed 64-bit
    range and when the resource is not active; only the resource lookup was
    sent and the tables are unchanged. A missing resource under a
    [resource_id] outside that range ends in an unhandled [OverflowError]
    instead, with nothing sent. *)
Theorem create_booking_missing_or_inactive
  (rid : Z) (cn : string) (s e now : datetime) (db : Session) :
  s < e ->
  ((resource_by_id rid (store db) = None /\ INT64_MIN <= rid <= INT64_MAX \/
    exists r, resource_by_id rid (store db) = Some r /\
              Resource.is_active r <> Some true) ->
   post_bookings rid cn s e now db =
     (HTTPException 400 "Resource not found or inactive",
      mkSession (store db) (sent db ++ [SelectResourceById rid]))) /\
  (resource_by_id rid (store db) = None ->
   ~ (INT64_MIN <= rid <= INT64_MAX) ->
   post_bookings rid cn s e now db = (Unhandled OverflowError, db)).
Proof.
  intros Hlt. unfold post_bookings.
  rewrite (model_validate_ok rid cn s e Hlt), create_booking_run. cbn.
  split.
  - intros Hres.
    assert (Hacc : accepts (resource_ids (store db)) rid = true).
    { destruct Hres as [[_ Hr] | (r & Hr & _)];
        [now apply accepts_range | now apply (resource_found_accepted rid _ r)]. }
    assert (Hmiss : missing_or_inactive (resource_by_id rid (store db)) = true).
    { apply missing_or_inactive_true.
      destruct Hres as [[Hn _] | Hr]; [now left | now right]. }
    now rewrite Hacc, Hmiss.
  - intros Hn Hr.
    assert (Hacc : accepts (resource_ids (store db)) rid = false).
    { apply accepts_false. split; [exact Hr |].
      now apply resource_missing_not_held. }
    now rewrite Hacc.
Qed.

Lemma create_booking_missing_or_inactive_witness :
  post_bookings 2 "Bob" (at_ jan_1_2024 10 0) (at_ jan_1_2024 11 0)
                (at_ jan_1_2024 8 0) (fresh_session sample_store)
  = (HTTPException 400 "Resource not found or inactive",
     mkSession sample_store [SelectResourceById 2]).
Proof.
  apply (proj1 (create_booking_missing_or_inactive 2 "Bob"
                  (at_ jan_1_2024 10 0) (at_ jan_1_2024 11 0)
                  (at_ jan_1_2024 8 0) (fresh_session sample_store) eq_refl)).
  right. exists closed_room. split; [reflexivity | discriminate].
Defined.

(** ** CreateBooking: the conflict check *)

Lemma create_booking_conflict_iff
  (rid : Z) (cn : string) (s e now : datetime) (db : Session) :
  s < e ->
  missing_or_inactive (resource_by_id rid (store db)) = false ->
  fst (post_bookings rid cn s e now db)
    = HTTPException 409 "Time slot already booked" <->
  exists c, first_conflict rid s e (store db) = Some c.
Proof.
  intros Hlt Hres. unfold post_bookings.
  rewrite (model_validate_ok rid cn s e Hlt), create_booking_run. cbn.
  rewrite (missing_or_inactive_accepted _ _ Hres), Hres.
  destruct (first_conflict rid s e (store db)) as [c |]; cbn.
  - split; [intros _; now exists c | reflexivity].
  - split; [discriminate | intros (c & Hc); discriminate].
Qed.

Lemma create_booking_conflict_only_if
  (rid : Z) (cn : string) (s e now : datetime) (db : Session) :
  fst (post_bookings rid cn s e now db)
    = HTTPException 409 "Time slot already booked" ->
  (exists c, first_conflict rid s e (store db) = Some c) /\
  snd (post_bookings rid cn s e now db)
    = mkSession (store db)
        (sent db ++ [SelectResourceById rid] ++ [SelectConflict rid s e]).
Proof.
  unfold post_bookings, BookingCreate.model_validate, BookingCreate.check_dates.
  destruct (e <=? s); [discriminate |].
  rewrite create_booking_run. cbn.
  destruct (accepts _ _); [| discriminate].
  destruct (missing_or_inactive _); [discriminate |].
  destruct (first_conflict rid s e (store db)) as [c |]; [| discriminate].
  cbn. intros _. split; [now exists c |]. now rewrite <- app_assoc.
Qed.

(** C2. Once a request has passed validation and the resource check,
    [create_booking] raises 409 exactly when some stored booking of that
    resource with status "active" meets the half-open overlap test
    ([start_at < new.end_at] and [end_at > new.start_at]); whenever 409 is
    raised such a booking exists and no row was written. In the scenario of
    the specification the first request succeeds, the nested one is refused
    with 409 and the back-to-back one succeeds. *)
Theorem create_booking_conflict :
  (forall rid cn s e now db,
     s < e ->
     (exists r, resource_by_id rid (store db) = Some r /\
                Resource.is_active r = Some true) ->
     (fst (post_bookings rid cn s e now db)
        = HTTPException 409 "Time slot already booked" <->
      exists b, In b (bookings (store db)) /\
                Booking.resource_id b = rid /\ Booking.status b = active /\
                Booking.start_at b < e /\ Booking.end_at b > s)) /\
  (forall rid cn s e now db,
     fst (post_bookings rid cn s e now db)
       = HTTPException 409 "Time slot already booked" ->
     (exists b, In b (bookings (store db)) /\
                Booking.resource_id b = rid /\ Booking.status b = active /\
                Booking.start_at b < e /\ Booking.end_at b > s) /\
     store (snd (post_bookings rid cn s e now db)) = store db) /\
  (let now := at_ jan_1_2024 8 0 in
   let first := post_bookings 1 "Ann" (at_ jan_1_2024 10 0)
                  (at_ jan_1_2024 11 0) now (fresh_session sample_store) in
   let nested := post_bookings 1 "Bob" (at_ jan_1_2024 10 30)
                   (at_ jan_1_2024 10 45) now
                   (fresh_session (store (snd first))) in
   let back_to_back := post_bookings 1 "Cy" (at_ jan_1_2024 11 0)
                         (at_ jan_1_2024 12 0) now
                         (fresh_session (store (snd nested))) in
   fst first = Ok morning /\
   fst nested = HTTPException 409 "Time slot already booked" /\
   store (snd nested) = store (snd first) /\
   fst back_to_back
     = Ok (Booking.mk 2 1 "Cy" (at_ jan_1_2024 11 0) (at_ jan_1_2024 12 0)
                      active now) /\
   bookings (store (snd back_to_back))
     = [morning;
        Booking.mk 2 1 "Cy" (at_ jan_1_2024 11 0) (at_ jan_1_2024 12 0)
                   active now]).
Proof.
  split; [| split].
  - intros rid cn s e now db Hlt Hres.
    apply missing_or_inactive_false in Hres.
    rewrite (create_booking_conflict_iff rid cn s e now db Hlt Hres).
    apply first_conflict_some.
  - intros rid cn s e now db H.
    destruct (create_booking_conflict_only_if rid cn s e now db H) as [Hc Hs].
    split; [now apply first_conflict_some | now rewrite Hs].
  - vm_compute. repeat split; reflexivity.
Qed.

Lemma create_booking_conflict_witness :
  fst (post_bookings 1 "Bob" (at_ jan_1_2024 10 30) (at_ jan_1_2024 10 45)
                     (at_ jan_1_2024 8 0) (fresh_session booked_store))
    = HTTPException 409 "Time slot already booked".
Proof.
  apply (proj1 create_booking_conflict 1 "Bob" (at_ jan_1_2024 10 30)
           (at_ jan_1_2024 10 45) (at_ jan_1_2024 8 0)
           (fresh_session booked_store)).
  - reflexivity.
  - exists room. split; reflexivity.
  - exists morning. repeat split; try reflexivity. now left.
Defined.

(** ** CancelBooking *)

Lemma cancel_booking_run (booking_id : Z) (db : Session) :
  cancel_booking booking_id db =
    match booking_by_id booking_id (store db) with
    | None =>
        if accepts (booking_ids (store db)) booking_id
        then (HTTPException 404 "Booking not found",
              mkSession (store db)
                        (sent db ++ [SelectBookingById booking_id]))
        else (Unhandled OverflowError, db)
    | Some b =>
        let st' := update_status (Booking.id b) canceled (store db) in
        (Ok match booking_by_id (Booking.id b) st' with
            | Some b' => b'
            | None => Booking.set_status canceled b
            end,
         mkSession st' ((sent db ++ [SelectBookingById booking_id])
                        ++ [UpdateBookingStatus (Booking.id b)]))
    end.
Proof.
  unfold cancel_booking, bind, query, raise, execute. cbn.
  destruct (booking_by_id booking_id (store db)) as [b |] eqn:E;
    [| destruct (accepts _ _); reflexivity].
  rewrite (booking_found_accepted _ _ _ E).
  cbn. match goal with
       | |- context [match ?x with Some _ => _ | None => _ end] => destruct x
       end; reflexivity.
Qed.

Lemma booking_by_id_some (bid : Z) (st : Store) (b : Booking.t) :
  booking_by_id bid st = Some b -> In b (bookings st) /\ Booking.id b = bid.
Proof.
  unfold booking_by_id. intros H. apply find_some in H as [Hin Hid].
  split; [exact Hin | now apply Z.eqb_eq].
Qed.

Lemma set_status_id (s : string) (b : Booking.t) :
  Booking.id (Booking.set_status s b) = Booking.id b.
Proof. reflexivity. Qed.

Lemma booking_by_id_update (bid : Z) (s : string) (st : Store) (b : Booking.t) :
  booking_by_id bid st = Some b ->
  booking_by_id bid (update_status bid s st) = Some (Booking.set_status s b).
Proof.
  unfold booking_by_id, update_status. cbn.
  induction (bookings st) as [| x rest IH]; cbn; [discriminate |].
  destruct (Booking.id x =? bid) eqn:E.
  - intros [= ->]. cbn. now rewrite E.
  - rewrite E. exact IH.
Qed.

Lemma update_status_twice (bid : Z) (s : string) (st : Store) :
  update_status bid s (update_status bid s st) = update_status bid s st.
Proof.
  unfold update_status. cbn. f_equal. rewrite map_map.
  apply map_ext. intros b.
  destruct (Booking.id b =? bid) eqn:E; cbn; rewrite E; reflexivity.
Qed.

Lemma cancel_booking_found (bid : Z) (db : Session) (b : Booking.t) :
  booking_by_id bid (store db) = Some b ->
  cancel_booking bid db =
    (Ok (Booking.set_status canceled b),
     mkSession (update_status bid canceled (store db))
               ((sent db ++ [SelectBookingById bid])
                ++ [UpdateBookingStatus bid])).
Proof.
  intros Hb. rewrite cancel_booking_run, Hb. cbv beta iota zeta.
  destruct (booking_by_id_some _ _ _ Hb) as [_ ->].
  now rewrite (booking_by_id_update bid canceled (store db) b Hb).
Qed.

(** C6. When the id resolves, a second [cancel_booking] on it succeeds,
    returns the very booking the first call returned, leaves the tables as
    the first call left them, and the stored status is "canceled" after
    each of the two calls. *)
Theorem cancel_booking_idempotent (bid : Z) (db : Session) (b : Booking.t) :
  booking_by_id bid (store db) = Some b ->
  exists b' db1 db2,
    cancel_booking bid db = (Ok b', db1) /\
    cancel_booking bid db1 = (Ok b', db2) /\
    store db2 = store db1 /\
    Booking.status b' = canceled /\
    booking_by_id bid (store db1) = Some b' /\
    booking_by_id bid (store db2) = Some b'.
Proof.
  intros Hb.
  pose proof (cancel_booking_found bid db b Hb) as H1.
  pose proof (booking_by_id_update bid canceled (store db) b Hb) as Hb1.
  set (db1 := mkSession (update_status bid canceled (store db))
                ((sent db ++ [SelectBookingById bid])
                 ++ [UpdateBookingStatus bid])) in *.
  pose proof (cancel_booking_found bid db1 _ Hb1) as H2.
  cbn [store db1] in H2. rewrite update_status_twice in H2.
  eexists _, db1, _. split; [exact H1 |]. split; [exact H2 |].
  cbn. repeat split; assumption.
Qed.

Lemma cancel_booking_idempotent_witness :
  exists b' db1 db2,
    cancel_booking 1 (fresh_session booked_store) = (Ok b', db1) /\
    cancel_booking 1 db1 = (Ok b', db2) /\
    store db2 = store db1 /\
    Booking.status b' = canceled /\
    booking_by_id 1 (store db1) = Some b' /\
    booking_by_id 1 (store db2) = Some b'.
Proof.
  apply (cancel_booking_idempotent 1 (fresh_session booked_store) morning).
  reflexivity.
Defined.

(** C7. When the id resolves, [cancel_booking] returns the booking with
    status "canceled" and its other columns as they were; in the tables the
    resources are untouched, every row keeps its position and every column
    but [status], a row with that id gets status "canceled", and every other
    row is left exactly as it was. *)
Theorem cancel_booking_frame (bid : Z) (db : Session) (b : Booking.t) :
  booking_by_id bid (store db) = Some b ->
  exists b' db',
    cancel_booking bid db = (Ok b', db') /\
    Booking.status b' = canceled /\
    Booking.id b' = Booking.id b /\
    Booking.resource_id b' = Booking.resource_id b /\
    Booking.customer_name b' = Booking.customer_name b /\
    Booking.start_at b' = Booking.start_at b /\
    Booking.end_at b' = Booking.end_at b /\
    Booking.created_at b' = Booking.created_at b /\
    booking_by_id bid (store db') = Some b' /\
    resources (store db') = resources (store db) /\
    List.length (bookings (store db')) = List.length (bookings (store db)) /\
    forall i x, nth_error (bookings (store db)) i = Some x ->
      exists y, nth_error (bookings (store db')) i = Some y /\
        Booking.id y = Booking.id x /\
        Booking.resource_id y = Booking.resource_id x /\
        Booking.customer_name y = Booking.customer_name x /\
        Booking.start_at y = Booking.start_at x /\
        Booking.end_at y = Booking.end_at x /\
        Booking.created_at y = Booking.created_at x /\
        (Booking.id x = bid -> Booking.status y = canceled) /\
        (Booking.id x <> bid -> y = x).
Proof.
  intros Hb. eexists _, _. split; [exact (cancel_booking_found bid db b Hb) |].
  cbn. repeat (split; [reflexivity |]).
  split; [exact (booking_by_id_update bid canceled (store db) b Hb) |].
  split; [reflexivity |]. split; [apply List.length_map |].
  intros i x Hx.
  eexists. split; [apply map_nth_error; exact Hx |]. cbv beta.
  destruct (Z.eqb_spec (Booking.id x) bid) as [E | E]; cbn;
    repeat split; intros; congruence.
Qed.

Lemma cancel_booking_frame_witness :
  exists b' db',
    cancel_booking 1 (fresh_session booked_store) = (Ok b', db') /\
    Booking.status b' = canceled /\
    bookings (store db') = [Booking.set_status canceled morning] /\
    resources (store db') = resources booked_store.
Proof.
  destruct (cancel_booking_frame 1 (fresh_session booked_store) morning
              eq_refl)
    as (b' & db' & Hrun & Hst & _ & _ & _ & _ & _ & _ & _ & Hres & _).
  exists b', db'. split; [exact Hrun |]. split; [exact Hst |].
  split; [| exact Hres].
  rewrite (cancel_booking_found 1 (fresh_session booked_store) morning eq_refl)
    in Hrun.
  injection Hrun as _ <-. reflexivity.
Defined.

(** ** The core invariant *)

Lemma next_id_above (bs : list Booking.t) (b : Booking.t) :
  In b bs -> Booking.id b < next_id bs.
Proof.
  unfold next_id. induction bs as [| x rest IH]; cbn [In map fold_right];
    [tauto |].
  intros [-> | Hin]; [lia |]. specialize (IH Hin). lia.
Qed.

Lemma next_id_fresh (bs : list Booking.t) :
  ~ In (next_id bs) (map Booking.id bs).
Proof.
  intros H. apply in_map_iff in H as (b & Hid & Hin).
  apply next_id_above in Hin. lia.
Qed.

Lemma active_not_canceled : canceled <> active.
Proof. discriminate. Qed.

Lemma well_kept_insert (st : Store) (rid : Z) (cn : string)
  (s e now : datetime) :
  well_kept st ->
  first_conflict rid s e st = None ->
  well_kept (insert_booking
               (Booking.mk (next_id (bookings st)) rid cn s e active now) st).
Proof.
  intros [Hnd Hinv] Hfree. unfold well_kept, insert_booking. cbn. split.
  - rewrite map_app. cbn. apply NoDup_app.
    + exact Hnd.
    + repeat constructor. intros [].
    + intros a Ha [<- | []]. now apply next_id_fresh in Ha.
  - pose proof (proj1 (first_conflict_none rid s e st) Hfree) as Hno.
    assert (Hold : forall b, In b (bookings st) ->
              Booking.resource_id b = rid -> Booking.status b = active ->
              ~ (Booking.start_at b < e /\ s < Booking.end_at b)).
    { intros b Hin Hr Ha [H1 H2]. specialize (Hno b Hin).
      assert (conflicts_with rid s e b = true)
        by (apply conflicts_with_true; repeat split; auto; lia).
      congruence. }
    intros b1 b2 H1 H2 Hne Hrid Ha1 Ha2. cbn in H1, H2.
    apply in_app_iff in H1 as [H1 | [<- | []]];
      apply in_app_iff in H2 as [H2 | [<- | []]]; cbn in *.
    + now apply Hinv.
    + intros [Hx Hy]. apply (Hold b1 H1 Hrid Ha1). now split.
    + intros [Hx Hy]. apply (Hold b2 H2 (eq_sym Hrid) Ha2). now split.
    + congruence.
Qed.

Lemma well_kept_update (st : Store) (bid : Z) :
  well_kept st -> well_kept (update_status bid canceled st).
Proof.
  intros [Hnd Hinv]. unfold well_kept, update_status. cbn. split.
  - rewrite map_map.
    erewrite map_ext; [exact Hnd |].
    intros b. now destruct (Booking.id b =? bid).
  - assert (Hback : forall b,
              In b (map (fun b => if Booking.id b =? bid
                                  then Booking.set_status canceled b else b)
                        (bookings st)) ->
              Booking.status b = active -> In b (bookings st)).
    { intros b Hin Ha. apply in_map_iff in Hin as (x & Hx & Hin).
      destruct (Booking.id x =? bid); subst b; [| exact Hin].
      cbn in Ha. now apply active_not_canceled in Ha. }
    intros b1 b2 H1 H2 Hne Hrid Ha1 Ha2. cbn in H1, H2.
    apply Hinv; auto.
Qed.

Lemma post_bookings_store (rid : Z) (cn : string) (s e now : datetime)
  (db : Session) :
  store (snd (post_bookings rid cn s e now db)) = store db \/
  first_conflict rid s e (store db) = None /\
  store (snd (post_bookings rid cn s e now db))
    = insert_booking
        (Booking.mk (next_id (bookings (store db))) rid cn s e active now)
        (store db).
Proof.
  unfold post_bookings, BookingCreate.model_validate, BookingCreate.check_dates.
  destruct (e <=? s); [now left |].
  rewrite create_booking_run. cbn.
  destruct (accepts _ _); [| now left].
  destruct (missing_or_inactive _); [now left |].
  destruct (first_conflict rid s e (store db)); [now left | now right].
Qed.

Lemma cancel_booking_store (bid : Z) (db : Session) :
  store (snd (cancel_booking bid db)) = store db \/
  exists k, store (snd (cancel_booking bid db))
              = update_status k canceled (store db).
Proof.
  rewrite cancel_booking_run.
  destruct (booking_by_id bid (store db)) as [b |];
    [| destruct (accepts _ _); now left].
  right. now exists (Booking.id b).
Qed.

Lemma well_kept_serve (st : Store) (r : request) :
  well_kept st -> well_kept (serve st r).
Proof.
  intros H. destruct r as [rid cn s e now | bid]; cbn [serve].
  - destruct (post_bookings_store rid cn s e now (fresh_session st))
      as [-> | [Hfree ->]]; [exact H |].
    now apply well_kept_insert.
  - destruct (cancel_booking_store bid (fresh_session st)) as [-> | [k ->]];
      [exact H |].
    now apply well_kept_update.
Qed.

Lemma well_kept_serve_all (rs : list request) (st : Store) :
  well_kept st -> well_kept (serve_all rs st).
Proof.
  unfold serve_all. revert st.
  induction rs as [| r rs IH]; intros st H; cbn; [exact H |].
  apply IH. now apply well_kept_serve.
Qed.

(** C1. In every store reached from one without bookings (whatever its
    resources) by a sequence of CreateBooking and CancelBooking requests,
    booking ids are pairwise distinct and no two distinct bookings of one
    resource that both have status "active" overlap as half-open
    intervals. *)
Theorem no_double_booking_reachable
  (rsrc : list Resource.t) (rs : list request) :
  NoDup (map Booking.id (bookings (serve_all rs (mkStore rsrc [])))) /\
  forall b1 b2,
    In b1 (bookings (serve_all rs (mkStore rsrc []))) ->
    In b2 (bookings (serve_all rs (mkStore rsrc []))) ->
    Booking.id b1 <> Booking.id b2 ->
    Booking.resource_id b1 = Booking.resource_id b2 ->
    Booking.status b1 = active -> Booking.status b2 = active ->
    ~ (Booking.start_at b1 < Booking.end_at b2 /\
       Booking.start_at b2 < Booking.end_at b1).
Proof.
  apply (well_kept_serve_all rs (mkStore rsrc [])).
  split; [constructor | intros b1 b2 []].
Qed.

(** ** ListBookings *)

Lemma insert_by_start_at_perm (b : Booking.t) (l : list Booking.t) :
  Permutation (insert_by_start_at b l) (b :: l).
Proof.
  induction l as [| x rest IH]; cbn; [reflexivity |].
  destruct (Booking.start_at b <=? Booking.start_at x); [reflexivity |].
  rewrite IH. apply perm_swap.
Qed.

Lemma order_by_start_at_perm (l : list Booking.t) :
  Permutation (order_by_start_at l) l.
Proof.
  unfold order_by_start_at. induction l as [| b rest IH]; cbn; [reflexivity |].
  rewrite insert_by_start_at_perm. now constructor.
Qed.

Lemma insert_by_start_at_sorted (b : Booking.t) (l : list Booking.t) :
  Sorted (fun a b => Booking.start_at a <= Booking.start_at b) l ->
  Sorted (fun a b => Booking.start_at a <= Booking.start_at b)
         (insert_by_start_at b l).
Proof.
  induction l as [| x rest IH]; cbn; intros Hs.
  - repeat constructor.
  - destruct (Z.leb_spec (Booking.start_at b) (Booking.start_at x)) as [Hle | Hgt].
    + constructor; [exact Hs | now constructor].
    + apply Sorted_inv in Hs as [Hrest Hhd].
      constructor; [now apply IH |].
      destruct rest as [| y rest']; cbn.
      * constructor. lia.
      * destruct (Booking.start_at b <=? Booking.start_at y);
          constructor; [lia | now apply HdRel_inv in Hhd].
Qed.

Lemma order_by_start_at_sorted (l : list Booking.t) :
  StronglySorted (fun a b => Booking.start_at a <= Booking.start_at b)
                 (order_by_start_at l).
Proof.
  apply Sorted_StronglySorted.
  - intros a b c Hab Hbc. lia.
  - unfold order_by_start_at. induction l as [| b rest IH]; cbn.
    + constructor.
    + now apply insert_by_start_at_sorted.
Qed.

Lemma filter_twice {A} (p q : A -> bool) (l : list A) :
  filter q (filter p l) = filter (fun x => p x && q x) l.
Proof.
  induction l as [| x rest IH]; cbn; [reflexivity |].
  destruct (p x); cbn; [destruct (q x) |]; now rewrite IH.
Qed.

Lemma filter_all {A} (l : list A) : filter (fun _ => true) l = l.
Proof. induction l as [| x rest IH]; cbn; [| rewrite IH]; reflexivity. Qed.

Lemma filter_resource_id_spec (resource_id : option Z) (q : list Booking.t) :
  filter_resource_id resource_id q =
  filter (fun b => match effective_id resource_id with
                   | Some rid => Booking.resource_id b =? rid
                   | None => true
                   end) q.
Proof.
  unfold filter_resource_id, effective_id.
  destruct resource_id as [rid |]; [destruct (rid =? 0) |];
    now rewrite ?filter_all.
Qed.

Lemma filter_date_from_spec (date_from : option datetime) (q : list Booking.t) :
  filter_date_from date_from q =
  filter (fun b => match date_from with
                   | Some d => d <=? Booking.start_at b
                   | None => true
                   end) q.
Proof.
  unfold filter_date_from. destruct date_from as [d |];
    [| now rewrite filter_all].
  apply filter_ext. intros b. apply Z.geb_leb.
Qed.

Lemma filter_date_to_spec (date_to : option datetime) (q : list Booking.t) :
  filter_date_to date_to q =
  filter (fun b => match date_to with
                   | Some d => Booking.end_at b <=? d
                   | None => true
                   end) q.
Proof.
  unfold filter_date_to. destruct date_to; now rewrite ?filter_all.
Qed.

Lemma filter_status_spec (status : option string) (q : list Booking.t) :
  filter_status status q =
  filter (fun b => match effective_status status with
                   | Some s => (Booking.status b =? s)%string
                   | None => true
                   end) q.
Proof.
  unfold filter_status, effective_status.
  destruct status as [s |]; [destruct (s =? "")%string |];
    now rewrite ?filter_all.
Qed.

Lemma select_bookings_spec (resource_id : option Z)
  (date_from date_to : option datetime) (status : option string) (st : Store) :
  select_bookings resource_id date_from date_to status st =
  order_by_start_at
    (filter (satisfies (effective_id resource_id) date_from date_to
                       (effective_status status))
            (bookings st)).
Proof.
  unfold select_bookings. cbv zeta.
  rewrite filter_status_spec, filter_date_to_spec, filter_date_from_spec,
    filter_resource_id_spec, !filter_twice.
  f_equal. apply filter_ext. intros b. unfold satisfies.
  now rewrite !andb_assoc.
Qed.

(** C8, as the specification states it, fails: with [resource_id = 0]
    provided, the booking of resource 1 is listed although it does not
    satisfy that filter. *)
Lemma list_bookings_zero_id_not_exact :
  get_bookings (Some 0) None None None (fresh_session booked_store)
    = (Ok [morning], mkSession booked_store [SelectBookings]) /\
  satisfies (Some 0) None None None morning = false /\
  ~ lists_exactly (Some 0) None None None booked_store [morning].
Proof.
  split; [reflexivity |]. split; [reflexivity |].
  intros [Hperm _]. cbn in Hperm.
  apply Permutation_length in Hperm. discriminate.
Qed.

(** C8, amended. For every combination of the four optional filters in
    which [resource_id], when given, is a signed 64-bit integer,
    [get_bookings] returns exactly the bookings that satisfy every filter
    given with a true value (a [resource_id] other than 0, any [date_from],
    any [date_to], a non-empty [status]), in ascending order of [start_at];
    with no filter given it returns all bookings; the tables are left
    alone. A [resource_id] outside the 64-bit range ends in an unhandled
    [OverflowError] instead. *)
Theorem list_bookings_filters (resource_id : option Z)
  (date_from date_to : option datetime) (status : option string)
  (db : Session) :
  ((forall rid, resource_id = Some rid -> INT64_MIN <= rid <= INT64_MAX) ->
   exists result,
     get_bookings resource_id date_from date_to status db
       = (Ok result, mkSession (store db) (sent db ++ [SelectBookings])) /\
     lists_exactly (effective_id resource_id) date_from date_to
                   (effective_status status) (store db) result) /\
  (exists result,
     get_bookings None None None None db
       = (Ok result, mkSession (store db) (sent db ++ [SelectBookings])) /\
     Permutation result (bookings (store db)) /\
     StronglySorted (fun a b => Booking.start_at a <= Booking.start_at b)
                    result) /\
  (forall rid,
     resource_id = Some rid -> ~ (INT64_MIN <= rid <= INT64_MAX) ->
     (forall b, In b (bookings (store db)) -> Booking.resource_id b <> rid) ->
     get_bookings resource_id date_from date_to status db
       = (Unhandled OverflowError, db)).
Proof.
  split; [| split].
  - intros Hrange. unfold get_bookings, query.
    assert (Hacc : match resource_id with
                   | Some rid => (rid =? 0)
                                 || accepts (booked_resource_ids (store db)) rid
                   | None => true
                   end = true).
    { destruct resource_id as [rid |]; [| reflexivity].
      rewrite (accepts_range _ rid (Hrange rid eq_refl)).
      apply orb_true_r. }
    rewrite Hacc. eexists. split; [reflexivity |].
    rewrite select_bookings_spec. split.
    + apply order_by_start_at_perm.
    + apply order_by_start_at_sorted.
  - eexists. split; [reflexivity |].
    rewrite select_bookings_spec. cbn [effective_id effective_status].
    split; [| apply order_by_start_at_sorted].
    rewrite order_by_start_at_perm.
    unfold satisfies. cbn. now rewrite filter_all.
  - intros rid -> Hout Hnone. unfold get_bookings, query.
    assert (Hacc : accepts (booked_resource_ids (store db)) rid = false).
    { apply accepts_false. split; [exact Hout |].
      unfold booked_resource_ids. intros Hin.
      apply in_map_iff in Hin as (b & Hb & Hin). now apply (Hnone b Hin). }
    assert (Hz : (rid =? 0) = false).
    { apply Z.eqb_neq. intros ->. apply Hout.
      unfold INT64_MIN, INT64_MAX. lia. }
    now rewrite Hacc, Hz.
Qed.

Lemma list_bookings_filters_witness :
  exists result,
    get_bookings (Some 1) None None (Some active) (fresh_session busy_store)
      = (Ok result, mkSession busy_store [SelectBookings]) /\
    lists_exactly (Some 1) None None (Some active) busy_store result.
Proof.
  apply (proj1 (list_bookings_filters (Some 1) None None (Some active)
                  (fresh_session busy_store))).
  intros rid [= <-]. unfold INT64_MIN, INT64_MAX. lia.
Defined.

(** C10. A filter given with a false value is no filter: [resource_id = 0]
    is answered as if [resource_id] were absent and [status = ""] as if
    [status] were absent, whatever the other filters and the store; on a
    store whose one booking is on resource 1 with status "active", both
    requests list that booking rather than nothing. *)
Theorem list_bookings_false_filter_ignored :
  (forall date_from date_to status db,
     get_bookings (Some 0) date_from date_to status db
       = get_bookings None date_from date_to status db) /\
  (forall resource_id date_from date_to db,
     get_bookings resource_id date_from date_to (Some "") db
       = get_bookings resource_id date_from date_to None db) /\
  fst (get_bookings (Some 0) None None None (fresh_session booked_store))
    = Ok [morning] /\
  fst (get_bookings None None None (Some "") (fresh_session booked_store))
    = Ok [morning] /\
  filter (fun b => Booking.resource_id b =? 0) (bookings booked_store) = [] /\
  filter (fun b => (Booking.status b =? "")%string) (bookings booked_store)
    = [].
Proof.
  repeat split; reflexivity.
Qed.

(** ** ComputeAvailability: the loop *)

Lemma datetime_max_value : DATETIME_MAX = 315537897599999999.
Proof. reflexivity. Qed.

Lemma combine_in_range (d t : Z) :
  date_in_range d -> time_in_range t -> 0 <= combine d t <= DATETIME_MAX.
Proof.
  unfold date_in_range, time_in_range, combine, DATETIME_MAX, DATE_MAX,
    US_PER_DAY, US_PER_MINUTE.
  lia.
Qed.

Lemma plus_minutes_inv (current_slot : datetime) (m : Z) (r : datetime) :
  plus_minutes current_slot m = Return r ->
  r = current_slot + m * US_PER_MINUTE /\ 0 <= r <= DATETIME_MAX.
Proof.
  unfold plus_minutes, timedelta_minutes, add. cbv zeta.
  destruct (Z.abs _ <=? TIMEDELTA_MAX_DAYS); cbv beta iota; [| discriminate].
  destruct (Z.leb_spec 0 (current_slot + m * US_PER_MINUTE)); cbv beta iota;
    [| discriminate].
  destruct (Z.leb_spec (current_slot + m * US_PER_MINUTE) DATETIME_MAX);
    cbv beta iota; [| discriminate].
  intros [= <-]. lia.
Qed.

Lemma plus_minutes_ok (current_slot : datetime) (m : Z) :
  0 <= current_slot -> 0 <= m ->
  current_slot + m * US_PER_MINUTE <= DATETIME_MAX ->
  plus_minutes current_slot m = Return (current_slot + m * US_PER_MINUTE).
Proof.
  intros Hc Hm Hmax. unfold plus_minutes, timedelta_minutes, add. cbv zeta.
  assert (Hd : 0 <= m * US_PER_MINUTE / US_PER_DAY <= TIMEDELTA_MAX_DAYS).
  { split.
    - apply Z.div_pos; unfold US_PER_MINUTE, US_PER_DAY; lia.
    - apply Z.div_le_upper_bound; [reflexivity |].
      rewrite datetime_max_value in Hmax.
      unfold US_PER_DAY, TIMEDELTA_MAX_DAYS. lia. }
  rewrite Z.abs_eq by lia.
  destruct (Z.leb_spec (m * US_PER_MINUTE / US_PER_DAY) TIMEDELTA_MAX_DAYS);
    cbv beta iota; [| lia].
  destruct (Z.leb_spec 0 (current_slot + m * US_PER_MINUTE));
    cbv beta iota; [| unfold US_PER_MINUTE in *; lia].
  destruct (Z.leb_spec (current_slot + m * US_PER_MINUTE) DATETIME_MAX);
    [reflexivity | lia].
Qed.

Lemma plus_minutes_overflow (current_slot : datetime) (m : Z) :
  DATETIME_MAX < current_slot + m * US_PER_MINUTE ->
  plus_minutes current_slot m = Raise OverflowError.
Proof.
  intros Hmax. destruct (plus_minutes current_slot m) as [r | []] eqn:E;
    [| reflexivity].
  apply plus_minutes_inv in E. lia.
Qed.

Lemma slot_is_free_spec (bs : list Booking.t) (c e : datetime) :
  slot_is_free bs c e = free_of bs (Slot.mk c e).
Proof.
  unfold free_of. induction bs as [| b rest IH]; cbn; [reflexivity |].
  rewrite Z.gtb_ltb.
  destruct ((c <? Booking.end_at b) && (Booking.start_at b <? e)); cbn;
    [reflexivity | exact IH].
Qed.

Lemma candidate_shift (day_start : datetime) (m : Z) (i : nat) :
  candidate (day_start + m * US_PER_MINUTE) m i = candidate day_start m (S i).
Proof.
  unfold candidate. rewrite Nat2Z.inj_succ. f_equal; ring.
Qed.

Lemma full_slots_step (current_slot day_end : datetime) (m : Z) (n : nat) :
  0 < m ->
  Z.to_nat (full_slots current_slot day_end m) = S n ->
  current_slot + m * US_PER_MINUTE <= day_end /\
  Z.to_nat (full_slots (current_slot + m * US_PER_MINUTE) day_end m) = n.
Proof.
  unfold full_slots. intros Hm Hn.
  assert (Hd : 0 < m * US_PER_MINUTE) by (unfold US_PER_MINUTE; lia).
  assert (Hq : 1 <= (day_end - current_slot) / (m * US_PER_MINUTE)) by lia.
  replace (day_end - (current_slot + m * US_PER_MINUTE))
    with ((day_end - current_slot) + (-1) * (m * US_PER_MINUTE)) by ring.
  rewrite Z.div_add by lia. split; [| lia].
  pose proof (Z.mul_div_le (day_end - current_slot) (m * US_PER_MINUTE) Hd).
  nia.
Qed.

Lemma full_slots_stop (current_slot day_end : datetime) (m : Z) :
  0 < m ->
  Z.to_nat (full_slots current_slot day_end m) = O ->
  day_end < current_slot + m * US_PER_MINUTE.
Proof.
  unfold full_slots. intros Hm Hn.
  assert (Hd : 0 < m * US_PER_MINUTE) by (unfold US_PER_MINUTE; lia).
  assert (Hq : (day_end - current_slot) / (m * US_PER_MINUTE) <= 0) by lia.
  pose proof (Z.mod_pos_bound (day_end - current_slot) (m * US_PER_MINUTE) Hd).
  pose proof (Z.div_mod (day_end - current_slot) (m * US_PER_MINUTE)).
  nia.
Qed.

Lemma candidate_first (day_start : datetime) (m : Z) :
  candidate day_start m 0 = Slot.mk day_start (day_start + m * US_PER_MINUTE).
Proof. unfold candidate. cbn [Z.of_nat]. f_equal; ring. Qed.

Lemma candidates_unroll (current_slot : datetime) (m : Z) (n : nat) :
  map (candidate current_slot m) (seq 0 (S n)) =
  Slot.mk current_slot (current_slot + m * US_PER_MINUTE)
  :: map (candidate (current_slot + m * US_PER_MINUTE) m) (seq 0 n).
Proof.
  cbn [seq map]. rewrite candidate_first. f_equal.
  rewrite <- seq_shift, map_map. apply map_ext. intros i.
  symmetry. apply candidate_shift.
Qed.

(** With more fuel than there are full slots left, the loop either exits
    with the free candidates appended or stops at the overflowing sum, after
    as many iterations as there are full slots. *)
Lemma while_slots_run (m : Z) (day_end : datetime) (bs : list Booking.t) :
  0 < m -> day_end <= DATETIME_MAX ->
  forall (n : nat) (current_slot : datetime) (available_slots : list Slot.t)
         (iterations fuel : nat),
    0 <= current_slot ->
    Z.to_nat (full_slots current_slot day_end m) = n ->
    (n < fuel)%nat ->
    while_slots fuel m day_end bs current_slot available_slots iterations =
      if current_slot + (Z.of_nat n + 1) * (m * US_PER_MINUTE) <=? DATETIME_MAX
      then Exits (available_slots
                  ++ filter (free_of bs)
                            (map (candidate current_slot m) (seq 0 n)))
                 (iterations + n)
      else Raises OverflowError (iterations + n).
Proof.
  intros Hm Hend.
  assert (Hd : 0 < m * US_PER_MINUTE) by (unfold US_PER_MINUTE; lia).
  induction n as [| n IH]; intros cur avail it fuel Hcur Hn Hfuel;
    (destruct fuel as [| fuel]; [lia |]); cbn [while_slots].
  - apply (full_slots_stop _ _ _ Hm) in Hn.
    cbn [Z.of_nat]. rewrite Z.add_0_l, Z.mul_1_l, Nat.add_0_r.
    destruct (Z.leb_spec (cur + m * US_PER_MINUTE) DATETIME_MAX) as [Hle | Hgt].
    + rewrite plus_minutes_ok by lia. cbn [try].
      destruct (Z.leb_spec (cur + m * US_PER_MINUTE) day_end); [lia |].
      cbn. now rewrite app_nil_r.
    + now rewrite plus_minutes_overflow.
  - destruct (full_slots_step _ _ _ _ Hm Hn) as [Hfit Hrest].
    rewrite plus_minutes_ok by lia. cbn [try].
    destruct (Z.leb_spec (cur + m * US_PER_MINUTE) day_end); [| lia].
    rewrite (IH (cur + m * US_PER_MINUTE)) by lia.
    rewrite slot_is_free_spec, candidates_unroll, Nat2Z.inj_succ.
    replace (cur + m * US_PER_MINUTE + (Z.of_nat n + 1) * (m * US_PER_MINUTE))
      with (cur + (Z.succ (Z.of_nat n) + 1) * (m * US_PER_MINUTE)) by ring.
    replace (S it + n)%nat with (it + S n)%nat by lia.
    cbn [filter].
    destruct (free_of bs _); [now rewrite <- app_assoc | reflexivity].
Qed.



Lemma full_slots_in_minutes (d s e m : Z) :
  0 < m ->
  full_slots (combine d s) (combine d e) m = (e - s) / m.
Proof.
  intros Hm. unfold full_slots, combine.
  replace (d * US_PER_DAY + e * US_PER_MINUTE
           - (d * US_PER_DAY + s * US_PER_MINUTE))
    with ((e - s) * US_PER_MINUTE) by ring.
  apply Z.div_mul_cancel_r; [lia | discriminate].
Qed.

(** ** ComputeAvailability: the handler *)

Lemma get_availability_loop_of
  (strptime_date strptime_time : string -> option Z)
  (rid : Z) (date : string) (m : Z) (ws we : string) (fuel : nat)
  (db : Session) (d s e : Z) :
  strptime_date date = Some d ->
  strptime_time ws = Some s -> strptime_time we = Some e ->
  accepts (booked_resource_ids (store db)) rid = true ->
  get_availability strptime_date strptime_time rid date m ws we fuel db =
    match loop_of rid d s e m fuel (store db) with
    | Exits available_slots _ =>
        Some (Ok (Availability.mk rid date available_slots),
              mkSession (store db)
                (sent db ++ [SelectWindow rid (combine d s) (combine d e)]))
    | Raises ex _ =>
        Some (Unhandled ex,
              mkSession (store db)
                (sent db ++ [SelectWindow rid (combine d s) (combine d e)]))
    | OutOfFuel => None
    end.
Proof.
  intros Hd Hs He Hacc. unfold get_availability, loop_of.
  rewrite Hd, Hs, He, Hacc. reflexivity.
Qed.

Lemma get_availability_refused
  (strptime_date strptime_time : string -> option Z)
  (rid : Z) (date : string) (m : Z) (ws we : string) (fuel : nat)
  (db : Session) (d s e : Z) :
  strptime_date date = Some d ->
  strptime_time ws = Some s -> strptime_time we = Some e ->
  accepts (booked_resource_ids (store db)) rid = false ->
  get_availability strptime_date strptime_time rid date m ws we fuel db
    = Some (Unhandled OverflowError, db).
Proof.
  intros Hd Hs He Hacc. unfold get_availability.
  rewrite Hd, Hs, He, Hacc. reflexivity.
Qed.

Lemma unbooked_id_refused (rid : Z) (st : Store) :
  ~ (INT64_MIN <= rid <= INT64_MAX) ->
  (forall b, In b (bookings st) -> Booking.resource_id b <> rid) ->
  accepts (booked_resource_ids st) rid = false.
Proof.
  intros Hout Hnone. apply accepts_false. split; [exact Hout |].
  unfold booked_resource_ids. intros Hin.
  apply in_map_iff in Hin as (b & Hb & Hin). now apply (Hnone b Hin).
Qed.

Lemma loop_of_run (rid d s e m : Z) (fuel : nat) (st : Store) :
  date_in_range d -> time_in_range s -> time_in_range e -> 0 < m ->
  (Z.to_nat ((e - s) / m) < fuel)%nat ->
  loop_of rid d s e m fuel st =
    if last_bound (combine d s) (combine d e) m <=? DATETIME_MAX
    then Exits (filter (free_of (window_bookings rid (combine d s)
                                                 (combine d e) st))
                       (candidate_slots (combine d s) (combine d e) m))
               (Z.to_nat ((e - s) / m))
    else Raises OverflowError (Z.to_nat ((e - s) / m)).
Proof.
  intros Hd Hs He Hm Hfuel. unfold loop_of. cbv zeta.
  pose proof (combine_in_range d s Hd Hs) as [Hs0 _].
  pose proof (combine_in_range d e Hd He) as [_ Hemax].
  pose proof (full_slots_in_minutes d s e m Hm) as Hfull.
  rewrite (while_slots_run m (combine d e) _ Hm Hemax
             (Z.to_nat ((e - s) / m)) (combine d s) [] 0%nat fuel Hs0)
    by (try rewrite Hfull; auto).
  unfold last_bound, candidate_slots. rewrite Hfull.
  replace (Z.of_nat (Z.to_nat ((e - s) / m))) with (Z.max 0 ((e - s) / m))
    by lia.
  reflexivity.
Qed.

Lemma window_bookings_in (rid : Z) (day_start day_end : datetime) (st : Store)
  (b : Booking.t) :
  In b (window_bookings rid day_start day_end st) <->
  In b (bookings st) /\ Booking.resource_id b = rid /\
  Booking.status b = active /\
  Booking.end_at b > day_start /\ Booking.start_at b < day_end.
Proof.
  unfold window_bookings. split.
  - intros H. apply (Permutation_in _ (order_by_start_at_perm _)) in H.
    apply filter_In in H as [Hin H].
    rewrite !andb_true_iff, Z.eqb_eq, String.eqb_eq, Z.gtb_gt, Z.ltb_lt in H.
    tauto.
  - intros (Hin & Hr & Ha & He & Hs).
    apply (Permutation_in _ (Permutation_sym (order_by_start_at_perm _))).
    apply filter_In. split; [exact Hin |].
    rewrite !andb_true_iff, Z.eqb_eq, String.eqb_eq, Z.gtb_gt, Z.ltb_lt.
    tauto.
Qed.

Lemma free_of_spec (bs : list Booking.t) (c : Slot.t) :
  free_of bs c = true <->
  forall b, In b bs ->
    ~ (Slot.start c < Booking.end_at b /\ Booking.start_at b < Slot.end_ c).
Proof.
  unfold free_of. rewrite forallb_forall. split; intros H b Hin.
  - specialize (H b Hin). rewrite negb_true_iff, andb_false_iff in H.
    rewrite !Z.ltb_ge in H. lia.
  - specialize (H b Hin). rewrite negb_true_iff, andb_false_iff.
    rewrite !Z.ltb_ge. lia.
Qed.

Lemma StronglySorted_filter {A} (R : A -> A -> Prop) (p : A -> bool)
  (l : list A) :
  StronglySorted R l -> StronglySorted R (filter p l).
Proof.
  induction 1 as [| a l Hs IH Hall]; cbn; [constructor |].
  destruct (p a); [| exact IH].
  constructor; [exact IH |].
  rewrite Forall_forall in *. intros x Hx.
  apply filter_In in Hx as [Hx _]. now apply Hall.
Qed.

Lemma candidates_chronological (day_start : datetime) (m : Z) :
  0 < m ->
  forall n a,
    StronglySorted (fun x y => Slot.end_ x <= Slot.start y)
                   (map (candidate day_start m) (seq a n)).
Proof.
  intros Hm. induction n as [| n IH]; intros a; cbn [seq map]; constructor.
  - apply IH.
  - rewrite Forall_forall. intros c Hc.
    apply in_map_iff in Hc as (j & <- & Hj). apply in_seq in Hj.
    unfold candidate. cbn. unfold US_PER_MINUTE. nia.
Qed.

(** The candidate slots cut the window as the specification says. *)
Lemma candidate_slots_partition (day_start day_end : datetime) (m : Z) :
  0 < m ->
  List.length (candidate_slots day_start day_end m)
    = Z.to_nat (full_slots day_start day_end m) /\
  (forall i,
     (i < Z.to_nat (full_slots day_start day_end m))%nat ->
     nth_error (candidate_slots day_start day_end m) i
       = Some (Slot.mk (day_start + Z.of_nat i * (m * US_PER_MINUTE))
                       (day_start + Z.of_nat i * (m * US_PER_MINUTE)
                        + m * US_PER_MINUTE))) /\
  (forall c, In c (candidate_slots day_start day_end m) ->
     day_start <= Slot.start c /\ Slot.end_ c <= day_end /\
     Slot.end_ c = Slot.start c + m * US_PER_MINUTE) /\
  (day_start <= day_end ->
   day_end < day_start
             + (full_slots day_start day_end m + 1) * (m * US_PER_MINUTE)) /\
  (day_end <= day_start + m * US_PER_MINUTE - 1 ->
   candidate_slots day_start day_end m = []).
Proof.
  intros Hm.
  assert (Hd : 0 < m * US_PER_MINUTE) by (unfold US_PER_MINUTE; lia).
  pose proof (Z.mod_pos_bound (day_end - day_start) (m * US_PER_MINUTE) Hd)
    as Hmod.
  pose proof (Z.div_mod (day_end - day_start) (m * US_PER_MINUTE)
                ltac:(lia)) as Hdiv.
  unfold candidate_slots. fold (full_slots day_start day_end m) in Hdiv.
  unfold full_slots in *.
  set (k := (day_end - day_start) / (m * US_PER_MINUTE)) in *.
  repeat split.
  - now rewrite length_map, length_seq.
  - intros i Hi. rewrite nth_error_map, nth_error_seq.
    destruct (Nat.ltb_spec i (Z.to_nat k)); [| lia].
    cbn. unfold candidate. f_equal. f_equal. lia.
  - apply in_map_iff in H as (i & <- & Hi). apply in_seq in Hi.
    unfold candidate. cbn. nia.
  - apply in_map_iff in H as (i & <- & Hi). apply in_seq in Hi.
    unfold candidate. cbn. nia.
  - apply in_map_iff in H as (i & <- & Hi).
    unfold candidate. cbn. lia.
  - intros Hle. nia.
  - intros Hshort.
    assert (k <= 0) by nia.
    replace (Z.to_nat k) with 0%nat by lia. reflexivity.
Qed.

(** C3, as the specification states it, fails: for the date 9999-12-31 and
    slots of 1000 minutes the first sum of the loop condition leaves the
    datetime range and the request ends in an unhandled [OverflowError],
    with whatever fuel; so it does for 2024-01-01 and slots of
    10000000000 minutes. No list of slots is returned. *)
Lemma availability_overflow :
  (forall fuel,
     get_availability strptime_date_sample strptime_time_sample
       1 "9999-12-31" 1000 "09:00" "18:00" (S fuel)
       (fresh_session sample_store)
     = Some (Unhandled OverflowError,
             mkSession sample_store
               [SelectWindow 1 (at_ dec_31_9999 9 0) (at_ dec_31_9999 18 0)])) /\
  (forall fuel,
     get_availability strptime_date_sample strptime_time_sample
       1 "2024-01-01" 10000000000 "09:00" "18:00" (S fuel)
       (fresh_session sample_store)
     = Some (Unhandled OverflowError,
             mkSession sample_store
               [SelectWindow 1 (at_ jan_1_2024 9 0) (at_ jan_1_2024 18 0)])) /\
  plus_minutes (at_ dec_31_9999 9 0) 1000 = Raise OverflowError.
Proof.
  split; [| split].
  - intros fuel.
    rewrite (get_availability_loop_of _ _ 1 "9999-12-31" 1000 "09:00" "18:00"
               (S fuel) _ dec_31_9999 (9 * 60) (18 * 60))
      by reflexivity.
    rewrite loop_of_run; [reflexivity | | | | | ];
      unfold date_in_range, time_in_range, dec_31_9999, DATE_MAX;
      try lia.
    change ((18 * 60 - 9 * 60) / 1000) with 0. cbn. lia.
  - intros fuel.
    rewrite (get_availability_loop_of _ _ 1 "2024-01-01" 10000000000
               "09:00" "18:00" (S fuel) _ jan_1_2024 (9 * 60) (18 * 60))
      by reflexivity.
    rewrite loop_of_run; [reflexivity | | | | | ];
      unfold date_in_range, time_in_range, jan_1_2024, DATE_MAX;
      try lia.
    change ((18 * 60 - 9 * 60) / 10000000000) with 0. cbn. lia.
  - reflexivity.
Qed.

(** C3, amended. For a [resource_id] in the signed 64-bit range, parsed
    date, [work_start] and [work_end] and a positive [slot_minutes], let [n]
    be the number of full slots between [day_start] and [day_end]. With
    more fuel than [n], [get_availability] returns, when
    [day_start + (n + 1) * slot_minutes] does not exceed [datetime.max],
    exactly the candidate slots that overlap no loaded booking, in
    chronological order, and otherwise ends in an unhandled
    [OverflowError]. The loaded bookings are the active bookings of the
    resource that intersect the window; the candidates are consecutive, of
    exactly [slot_minutes], start at [day_start], end at or before
    [day_end], and leave less than one slot of the window uncovered. On an
    empty schedule, from 09:00 to 18:00 in slots of 30 minutes, 18 slots are
    returned, the first starting 09:00 and the last ending 18:00. A
    [resource_id] outside the 64-bit range ends in an unhandled
    [OverflowError] before the loop, whatever [slot_minutes] is. *)
Theorem compute_availability :
  (forall (strptime_date strptime_time : string -> option Z)
          rid date m ws we db d s e fuel,
     strptime_date date = Some d -> date_in_range d ->
     strptime_time ws = Some s -> time_in_range s ->
     strptime_time we = Some e -> time_in_range e ->
     0 < m ->
     INT64_MIN <= rid <= INT64_MAX ->
     (Z.to_nat ((e - s) / m) < fuel)%nat ->
     (last_bound (combine d s) (combine d e) m <= DATETIME_MAX ->
      get_availability strptime_date strptime_time rid date m ws we fuel db
      = Some (Ok (Availability.mk rid date
                    (filter (free_of (window_bookings rid (combine d s)
                                        (combine d e) (store db)))
                            (candidate_slots (combine d s) (combine d e) m))),
              mkSession (store db)
                (sent db ++ [SelectWindow rid (combine d s) (combine d e)])))
     /\
     (DATETIME_MAX < last_bound (combine d s) (combine d e) m ->
      get_availability strptime_date strptime_time rid date m ws we fuel db
      = Some (Unhandled OverflowError,
              mkSession (store db)
                (sent db ++ [SelectWindow rid (combine d s) (combine d e)]))))
  /\
  (forall rid day_start day_end st b,
     In b (window_bookings rid day_start day_end st) <->
     In b (bookings st) /\ Booking.resource_id b = rid /\
     Booking.status b = active /\
     Booking.end_at b > day_start /\ Booking.start_at b < day_end)
  /\
  (forall bs day_start day_end m c,
     0 < m ->
     (In c (filter (free_of bs) (candidate_slots day_start day_end m)) <->
      In c (candidate_slots day_start day_end m) /\
      forall b, In b bs ->
        ~ (Slot.start c < Booking.end_at b /\
           Booking.start_at b < Slot.end_ c)) /\
     StronglySorted (fun x y => Slot.end_ x <= Slot.start y)
       (filter (free_of bs) (candidate_slots day_start day_end m)))
  /\
  (forall day_start day_end m,
     0 < m ->
     List.length (candidate_slots day_start day_end m)
       = Z.to_nat (full_slots day_start day_end m) /\
     (forall i,
        (i < Z.to_nat (full_slots day_start day_end m))%nat ->
        nth_error (candidate_slots day_start day_end m) i
          = Some (Slot.mk (day_start + Z.of_nat i * (m * US_PER_MINUTE))
                          (day_start + Z.of_nat i * (m * US_PER_MINUTE)
                           + m * US_PER_MINUTE))) /\
     (forall c, In c (candidate_slots day_start day_end m) ->
        day_start <= Slot.start c /\ Slot.end_ c <= day_end /\
        Slot.end_ c = Slot.start c + m * US_PER_MINUTE) /\
     (day_start <= day_end ->
      day_end < day_start
                + (full_slots day_start day_end m + 1) * (m * US_PER_MINUTE)) /\
     (day_end <= day_start + m * US_PER_MINUTE - 1 ->
      candidate_slots day_start day_end m = []))
  /\
  (forall (strptime_date strptime_time : string -> option Z)
          rid date ws we db d,
     strptime_date date = Some d -> date_in_range d ->
     strptime_time ws = Some (9 * 60) -> strptime_time we = Some (18 * 60) ->
     INT64_MIN <= rid <= INT64_MAX ->
     window_bookings rid (at_ d 9 0) (at_ d 18 0) (store db) = [] ->
     exists slots,
       get_availability strptime_date strptime_time rid date 30 ws we 19 db
       = Some (Ok (Availability.mk rid date slots),
               mkSession (store db)
                 (sent db ++ [SelectWindow rid (at_ d 9 0) (at_ d 18 0)])) /\
       List.length slots = 18%nat /\
       nth_error slots 0 = Some (Slot.mk (at_ d 9 0) (at_ d 9 30)) /\
       nth_error slots 17 = Some (Slot.mk (at_ d 17 30) (at_ d 18 0)))
  /\
  (forall (strptime_date strptime_time : string -> option Z)
          rid date m ws we db d s e fuel,
     strptime_date date = Some d ->
     strptime_time ws = Some s -> strptime_time we = Some e ->
     ~ (INT64_MIN <= rid <= INT64_MAX) ->
     (forall b, In b (bookings (store db)) -> Booking.resource_id b <> rid) ->
     get_availability strptime_date strptime_time rid date m ws we fuel db
     = Some (Unhandled OverflowError, db)).
Proof.
  split; [| split; [| split; [| split; [| split]]]].
  - intros sd stt rid date m ws we db d s e fuel Hd Hdr Hs Hsr He Her Hm Hrid
      Hfuel.
    rewrite (get_availability_loop_of sd stt rid date m ws we fuel db d s e
               Hd Hs He (accepts_range _ rid Hrid)).
    rewrite (loop_of_run rid d s e m fuel (store db) Hdr Hsr Her Hm Hfuel).
    split; intros Hb.
    + destruct (Z.leb_spec (last_bound (combine d s) (combine d e) m)
                           DATETIME_MAX); [reflexivity | lia].
    + destruct (Z.leb_spec (last_bound (combine d s) (combine d e) m)
                           DATETIME_MAX); [lia | reflexivity].
  - intros. apply window_bookings_in.
  - intros bs ds de m c Hm. split.
    + rewrite filter_In, free_of_spec. reflexivity.
    + apply StronglySorted_filter. unfold candidate_slots.
      now apply candidates_chronological.
  - intros ds de m Hm. now apply candidate_slots_partition.
  - intros sd stt rid date ws we db d Hd Hdr Hs He Hrid Hempty.
    assert (Hsr : time_in_range (9 * 60)) by (unfold time_in_range; lia).
    assert (Her : time_in_range (18 * 60)) by (unfold time_in_range; lia).
    rewrite (get_availability_loop_of sd stt rid date 30 ws we 19 db d
               (9 * 60) (18 * 60) Hd Hs He (accepts_range _ rid Hrid)).
    rewrite (loop_of_run rid d (9 * 60) (18 * 60) 30 19 (store db) Hdr Hsr Her)
      by (try lia; vm_compute; lia).
    unfold at_ in *. change (9 * 60 + 0) with (9 * 60) in *.
    change (18 * 60 + 0) with (18 * 60) in *.
    rewrite Hempty.
    unfold last_bound, candidate_slots.
    rewrite (full_slots_in_minutes d (9 * 60) (18 * 60) 30) by lia.
    change ((18 * 60 - 9 * 60) / 30) with 18.
    destruct (Z.leb_spec
                (combine d (9 * 60) + (Z.max 0 18 + 1) * (30 * US_PER_MINUTE))
                DATETIME_MAX) as [_ | Hover].
    + eexists. split; [reflexivity |].
      change (Z.to_nat 18) with 18%nat.
      cbn [seq map filter free_of forallb List.length nth_error].
      split; [reflexivity |].
      unfold candidate, combine, US_PER_MINUTE, US_PER_DAY.
      split; f_equal; f_equal; lia.
    + exfalso. revert Hover. unfold date_in_range, DATE_MAX in Hdr.
      rewrite datetime_max_value.
      unfold combine, US_PER_DAY, US_PER_MINUTE. lia.
  - intros sd stt rid date m ws we db d s e fuel Hd Hs He Hout Hnone.
    apply (get_availability_refused sd stt rid date m ws we fuel db d s e
             Hd Hs He).
    now apply unbooked_id_refused.
Qed.

Lemma compute_availability_witness :
  get_availability strptime_date_sample strptime_time_sample
    1 "2024-01-01" 60 "09:00" "11:00" 3 (fresh_session booked_store)
  = Some (Ok (Availability.mk 1 "2024-01-01"
                [Slot.mk (at_ jan_1_2024 9 0) (at_ jan_1_2024 10 0)]),
          mkSession booked_store
            [SelectWindow 1 (at_ jan_1_2024 9 0) (at_ jan_1_2024 11 0)]).
Proof.
  refine (eq_trans
            (proj1 (proj1 compute_availability
                      strptime_date_sample strptime_time_sample
                      1 "2024-01-01" 60 "09:00" "11:00"
                      (fresh_session booked_store) jan_1_2024 (9 * 60)
                      (11 * 60) 3%nat eq_refl _ eq_refl _ eq_refl _ _ _ _)
                   _) _).
  - unfold date_in_range, jan_1_2024, DATE_MAX. lia.
  - unfold time_in_range. lia.
  - unfold time_in_range. lia.
  - lia.
  - unfold INT64_MIN, INT64_MAX. lia.
  - vm_compute. lia.
  - vm_compute. discriminate.
  - reflexivity.
Defined.

(** ** ComputeAvailability: termination *)





(** * Further properties of the routes *)

(** ** The booking ledger *)

Lemma find_app_fresh {A} (p : A -> bool) (l : list A) (x : A) :
  (forall y, In y l -> p y = false) -> p x = true ->
  find p (l ++ [x]) = Some x.
Proof.
  intros Hl Hx. induction l as [| y rest IH]; cbn.
  - now rewrite Hx.
  - rewrite (Hl y) by now left. apply IH. intros z Hz. apply Hl. now right.
Qed.

Lemma post_bookings_ok_inv (rid : Z) (cn : string) (s e now : datetime)
  (db : Session) (nb : Booking.t) (db' : Session) :
  post_bookings rid cn s e now db = (Ok nb, db') ->
  s < e /\
  missing_or_inactive (resource_by_id rid (store db)) = false /\
  first_conflict rid s e (store db) = None /\
  nb = Booking.mk (next_id (bookings (store db))) rid cn s e active now /\
  store db' = insert_booking nb (store db).
Proof.
  unfold post_bookings, BookingCreate.model_validate, BookingCreate.check_dates.
  destruct (Z.leb_spec e s); [discriminate |].
  rewrite create_booking_run. cbn.
  destruct (accepts _ _); [| discriminate].
  destruct (missing_or_inactive _); [discriminate |].
  destruct (first_conflict rid s e (store db)); [discriminate |].
  intros [= <- <-]. cbn. auto.
Qed.

Lemma post_bookings_ok (rid : Z) (cn : string) (s e now : datetime)
  (db : Session) :
  s < e ->
  missing_or_inactive (resource_by_id rid (store db)) = false ->
  first_conflict rid s e (store db) = None ->
  post_bookings rid cn s e now db =
    (Ok (Booking.mk (next_id (bookings (store db))) rid cn s e active now),
     mkSession
       (insert_booking
          (Booking.mk (next_id (bookings (store db))) rid cn s e active now)
          (store db))
       (((sent db ++ [SelectResourceById rid]) ++ [SelectConflict rid s e])
        ++ [InsertBooking (next_id (bookings (store db)))])).
Proof.
  intros Hlt Hres Hfree. unfold post_bookings.
  rewrite (model_validate_ok rid cn s e Hlt), create_booking_run. cbn.
  now rewrite (missing_or_inactive_accepted _ _ Hres), Hres, Hfree.
Qed.

(** X1. A request with [start_at < end_at] on an active resource that
    overlaps none of its active bookings succeeds: the returned booking
    carries the request's fields, status "active" and an id no stored
    booking has; it is appended to the table, nothing else changes, and it
    is the booking found under its id afterwards. *)
Theorem create_booking_success
  (rid : Z) (cn : string) (s e now : datetime) (db : Session) :
  s < e ->
  bookable rid (store db) ->
  (forall b, In b (bookings (store db)) ->
     Booking.resource_id b = rid -> Booking.status b = active ->
     ~ (Booking.start_at b < e /\ s < Booking.end_at b)) ->
  exists nb db',
    post_bookings rid cn s e now db = (Ok nb, db') /\
    nb = Booking.mk (Booking.id nb) rid cn s e active now /\
    ~ In (Booking.id nb) (map Booking.id (bookings (store db))) /\
    bookings (store db') = bookings (store db) ++ [nb] /\
    resources (store db') = resources (store db) /\
    booking_by_id (Booking.id nb) (store db') = Some nb.
Proof.
  intros Hlt Hres Hno.
  apply missing_or_inactive_false in Hres.
  assert (Hfree : first_conflict rid s e (store db) = None).
  { apply first_conflict_none. intros b Hin.
    destruct (conflicts_with rid s e b) eqn:E; [| reflexivity].
    apply conflicts_with_true in E as (Hr & Ha & H1 & H2).
    exfalso. apply (Hno b Hin Hr Ha). lia. }
  eexists _, _.
  split; [exact (post_bookings_ok rid cn s e now db Hlt Hres Hfree) |].
  unfold booking_by_id, insert_booking.
  cbn [store bookings resources Booking.id].
  split; [reflexivity |]. split; [apply next_id_fresh |].
  split; [reflexivity |]. split; [reflexivity |].
  apply find_app_fresh.
  - intros y Hy. apply Z.eqb_neq. apply next_id_above in Hy. lia.
  - cbn [Booking.id]. apply Z.eqb_refl.
Qed.

Lemma create_booking_success_witness :
  exists nb db',
    post_bookings 1 "Cy" (at_ jan_1_2024 11 0) (at_ jan_1_2024 12 0)
                  (at_ jan_1_2024 8 0) (fresh_session booked_store)
      = (Ok nb, db') /\
    bookings (store db') = [morning; nb] /\
    booking_by_id (Booking.id nb) (store db') = Some nb.
Proof.
  destruct (create_booking_success 1 "Cy" (at_ jan_1_2024 11 0)
              (at_ jan_1_2024 12 0) (at_ jan_1_2024 8 0)
              (fresh_session booked_store))
    as (nb & db' & Hrun & _ & _ & Hbs & _ & Hfind).
  - reflexivity.
  - exists room. split; reflexivity.
  - intros b [<- | []] _ _ [H1 H2]. vm_compute in H2. discriminate.
  - exists nb, db'. repeat split; assumption.
Defined.

Lemma booking_by_id_none (bid : Z) (st : Store) :
  booking_by_id bid st = None <->
  forall b, In b (bookings st) -> Booking.id b <> bid.
Proof.
  unfold booking_by_id. split.
  - intros H b Hin. eapply find_none in H; [| exact Hin].
    cbn in H. now apply Z.eqb_neq.
  - intros H. destruct (find _ _) as [b |] eqn:E; [| reflexivity].
    apply find_some in E as [Hin Hid]. apply Z.eqb_eq in Hid.
    now apply H in Hin.
Qed.

Lemma missing_key_accepted (column : list Z) (n : Z) :
  ~ In n column ->
  (accepts column n = true <-> INT64_MIN <= n <= INT64_MAX) /\
  (accepts column n = false <-> ~ (INT64_MIN <= n <= INT64_MAX)).
Proof.
  intros Hn. split; split.
  - intros H. destruct (accepts column n) eqn:E; [| discriminate].
    destruct (Z.leb_spec INT64_MIN n), (Z.leb_spec n INT64_MAX); try lia;
      exfalso; (assert (Hf : accepts column n = false)
                  by (apply accepts_false; split; [lia | exact Hn]));
      congruence.
  - apply accepts_range.
  - intros H. now apply accepts_false in H.
  - intros H. apply accepts_false. now split.
Qed.

Lemma booking_missing_not_held (bid : Z) (st : Store) :
  booking_by_id bid st = None -> ~ In bid (booking_ids st).
Proof.
  intros H Hin. unfold booking_ids in Hin.
  apply in_map_iff in Hin as (b & Hid & Hb).
  now apply (proj1 (booking_by_id_none bid st) H b Hb).
Qed.

(** X2. [cancel_booking] on an id no stored booking has fails without a
    write: with 404 "Booking not found" exactly when the id is in the signed
    64-bit range, and with an unhandled [OverflowError] exactly when it is
    outside it; on an id a stored booking has it returns a booking. *)
Theorem cancel_booking_unknown (bid : Z) (db : Session) :
  (fst (cancel_booking bid db) = HTTPException 404 "Booking not found" <->
   (forall b, In b (bookings (store db)) -> Booking.id b <> bid) /\
   INT64_MIN <= bid <= INT64_MAX) /\
  (fst (cancel_booking bid db) = Unhandled OverflowError <->
   (forall b, In b (bookings (store db)) -> Booking.id b <> bid) /\
   ~ (INT64_MIN <= bid <= INT64_MAX)) /\
  ((forall b, fst (cancel_booking bid db) <> Ok b) ->
   snd (cancel_booking bid db) = db \/
   snd (cancel_booking bid db)
     = mkSession (store db) (sent db ++ [SelectBookingById bid])) /\
  ((exists b, In b (bookings (store db)) /\ Booking.id b = bid) <->
   exists b, fst (cancel_booking bid db) = Ok b).
Proof.
  rewrite cancel_booking_run. rewrite <- booking_by_id_none.
  destruct (booking_by_id bid (store db)) as [b |] eqn:E.
  - cbn [fst snd].
    split; [split; [discriminate | intros [H _]; discriminate] |].
    split; [split; [discriminate | intros [H _]; discriminate] |].
    split; [intros H; now contradiction (H _ eq_refl) |].
    split; [intros _; eexists; reflexivity |].
    intros _. exists b. now apply booking_by_id_some.
  - destruct (missing_key_accepted _ _ (booking_missing_not_held _ _ E))
      as [Hyes Hno].
    assert (Hnone : ~ exists b, In b (bookings (store db))
                                /\ Booking.id b = bid).
    { intros (b & Hin & Hid).
      now apply (proj1 (booking_by_id_none bid (store db)) E b Hin). }
    destruct (accepts (booking_ids (store db)) bid) eqn:Hacc; cbn [fst snd].
    + split; [split; [intros _; split; [reflexivity | now apply Hyes]
                     | reflexivity] |].
      split; [split; [discriminate |] |].
      { intros [_ Hout]. apply Hno in Hout. discriminate. }
      split; [intros _; now right |].
      split; [intros H; contradiction | intros [x Hx]; discriminate].
    + split; [split; [discriminate |] |].
      { intros [_ Hin]. apply Hyes in Hin. discriminate. }
      split; [split; [intros _; split; [reflexivity | now apply Hno]
                     | reflexivity] |].
      split; [intros _; now left |].
      split; [intros H; contradiction | intros [x Hx]; discriminate].
Qed.

Lemma update_status_resources (bid : Z) (s : string) (st : Store) :
  resources (update_status bid s st) = resources st.
Proof. reflexivity. Qed.

Lemma update_status_active_in (bid : Z) (st : Store) (x : Booking.t) :
  In x (bookings (update_status bid canceled st)) ->
  Booking.status x = active ->
  In x (bookings st) /\ Booking.id x <> bid.
Proof.
  unfold update_status. cbn. intros Hin Ha.
  apply in_map_iff in Hin as (y & Hy & Hin).
  destruct (Z.eqb_spec (Booking.id y) bid) as [E | E]; subst x.
  - cbn in Ha. now apply active_not_canceled in Ha.
  - now split.
Qed.



(** X4. A booking that was accepted blocks its interval on the store its
    acceptance leaves: served next, before any other write, every valid
    request for the same resource that overlaps it as a half-open interval,
    the very same request included, is refused with 409; a request that
    only touches it at an endpoint does not conflict with it. (A
    cancellation or a deactivation in between changes the answer.) *)
Theorem accepted_booking_blocks_overlap
  (rid : Z) (cn : string) (s e now : datetime) (db : Session)
  (nb : Booking.t) (db1 : Session) :
  post_bookings rid cn s e now db = (Ok nb, db1) ->
  (forall cn' s' e' now',
     s' < e' -> s < e' -> s' < e ->
     fst (post_bookings rid cn' s' e' now' (fresh_session (store db1)))
       = HTTPException 409 "Time slot already booked") /\
  fst (post_bookings rid cn s e now (fresh_session (store db1)))
    = HTTPException 409 "Time slot already booked" /\
  (forall s' e', e' <= s \/ e <= s' -> conflicts_with rid s' e' nb = false).
Proof.
  intros Hrun.
  apply post_bookings_ok_inv in Hrun as (Hlt & Hres & _ & Hnb & Hst).
  assert (Hblock : forall cn' s' e' now',
            s' < e' -> s < e' -> s' < e ->
            fst (post_bookings rid cn' s' e' now' (fresh_session (store db1)))
              = HTTPException 409 "Time slot already booked").
  { intros cn' s' e' now' Hlt' H1 H2.
    apply create_booking_conflict_iff; [exact Hlt' | |].
    - cbn [store fresh_session]. rewrite Hst. exact Hres.
    - apply first_conflict_some. exists nb.
      cbn [store fresh_session]. rewrite Hst. unfold insert_booking. cbn.
      split; [apply in_or_app; right; now left |].
      subst nb. cbn. repeat split; try reflexivity; lia. }
  split; [exact Hblock |]. split; [now apply Hblock |].
  intros s' e' Hor. subst nb. unfold conflicts_with, overlaps. cbn.
  destruct (Z.ltb_spec s e'), (Z.gtb_spec e s'); cbn;
    rewrite ?andb_false_r; try reflexivity; lia.
Qed.

Lemma accepted_booking_blocks_overlap_witness :
  fst (post_bookings 1 "Bob" (at_ jan_1_2024 10 0) (at_ jan_1_2024 11 0)
         (at_ jan_1_2024 9 0)
         (fresh_session
            (store (snd (post_bookings 1 "Ann" (at_ jan_1_2024 10 0)
                           (at_ jan_1_2024 11 0) (at_ jan_1_2024 8 0)
                           (fresh_session sample_store))))))
    = HTTPException 409 "Time slot already booked".
Proof.
  refine (proj1 (accepted_booking_blocks_overlap 1 "Ann" (at_ jan_1_2024 10 0)
                   (at_ jan_1_2024 11 0) (at_ jan_1_2024 8 0)
                   (fresh_session sample_store) _ _ eq_refl)
                "Bob" (at_ jan_1_2024 10 0) (at_ jan_1_2024 11 0)
                (at_ jan_1_2024 9 0) _ _ _);
    reflexivity.
Defined.

Lemma select_bookings_in (resource_id : option Z)
  (date_from date_to : option datetime) (status : option string)
  (st : Store) (b : Booking.t) :
  In b (select_bookings resource_id date_from date_to status st) <->
  In b (bookings st) /\
  satisfies (effective_id resource_id) date_from date_to
            (effective_status status) b = true.
Proof.
  rewrite select_bookings_spec, <- filter_In. split; intros H.
  - exact (Permutation_in _ (order_by_start_at_perm _) H).
  - exact (Permutation_in _ (Permutation_sym (order_by_start_at_perm _)) H).
Qed.

(** X5. A cancelled booking is kept, not deleted: after [cancel_booking] on
    an id that resolves, listing with [status = "canceled"] holds the
    booking with its new status, and listing with [status = "active"] holds
    no booking of that id. *)
Theorem cancelled_booking_listed_as_canceled
  (bid : Z) (db : Session) (b : Booking.t) :
  booking_by_id bid (store db) = Some b ->
  exists act can,
    fst (get_bookings None None None (Some active)
           (fresh_session (store (snd (cancel_booking bid db))))) = Ok act /\
    fst (get_bookings None None None (Some canceled)
           (fresh_session (store (snd (cancel_booking bid db))))) = Ok can /\
    In (Booking.set_status canceled b) can /\
    (forall x, In x act -> Booking.id x <> bid) /\
    List.length (bookings (store (snd (cancel_booking bid db))))
      = List.length (bookings (store db)).
Proof.
  intros Hb. rewrite (cancel_booking_found bid db b Hb).
  cbn [snd store fresh_session].
  eexists _, _. split; [reflexivity |]. split; [reflexivity |].
  split; [| split].
  - apply select_bookings_in. split.
    + apply booking_by_id_update with (s := canceled) in Hb.
      now apply booking_by_id_some in Hb.
    + reflexivity.
  - intros x Hx. apply select_bookings_in in Hx as [Hin Hsat].
    unfold satisfies in Hsat. cbn in Hsat. apply String.eqb_eq in Hsat.
    now apply (update_status_active_in bid (store db) x Hin).
  - unfold update_status. cbn. apply List.length_map.
Qed.

Lemma cancelled_booking_listed_as_canceled_witness :
  exists act can,
    fst (get_bookings None None None (Some active)
           (fresh_session
              (store (snd (cancel_booking 1 (fresh_session busy_store))))))
      = Ok act /\
    fst (get_bookings None None None (Some canceled)
           (fresh_session
              (store (snd (cancel_booking 1 (fresh_session busy_store))))))
      = Ok can /\
    In (Booking.set_status canceled morning) can /\
    (forall x, In x act -> Booking.id x <> 1).
Proof.
  destruct (cancelled_booking_listed_as_canceled 1 (fresh_session busy_store)
              morning eq_refl)
    as (act & can & Ha & Hc & Hin & Hout & _).
  exists act, can. repeat split; assumption.
Defined.

Lemma booking_by_id_after_update (k j : Z) (s : string) (st : Store) :
  booking_by_id k (update_status j s st) =
  option_map (fun b => if Booking.id b =? j then Booking.set_status s b else b)
             (booking_by_id k st).
Proof.
  unfold booking_by_id, update_status. cbn.
  induction (bookings st) as [| x rest IH]; cbn; [reflexivity |].
  destruct (Booking.id x =? j) eqn:Ej; cbn;
    destruct (Booking.id x =? k); cbn; rewrite ?Ej; auto.
Qed.

Lemma update_status_swap (j k : Z) (s : string) (st : Store) :
  update_status j s (update_status k s st)
  = update_status k s (update_status j s st).
Proof.
  unfold update_status. cbn. f_equal. rewrite !map_map.
  apply map_ext. intros b.
  destruct (Booking.id b =? k) eqn:Ek, (Booking.id b =? j) eqn:Ej; cbn;
    rewrite ?Ek, ?Ej; reflexivity.
Qed.

(** X6. Cancellations commute: when two ids resolve, cancelling them in
    either order succeeds at each step and leaves the same tables. *)
Theorem cancel_booking_commutes (j k : Z) (db : Session) (bj bk : Booking.t) :
  booking_by_id j (store db) = Some bj ->
  booking_by_id k (store db) = Some bk ->
  exists rj rk rj' rk',
    fst (cancel_booking j db) = Ok rj /\
    fst (cancel_booking k (fresh_session (store (snd (cancel_booking j db)))))
      = Ok rk /\
    fst (cancel_booking k db) = Ok rk' /\
    fst (cancel_booking j (fresh_session (store (snd (cancel_booking k db)))))
      = Ok rj' /\
    store (snd (cancel_booking k
                  (fresh_session (store (snd (cancel_booking j db))))))
    = store (snd (cancel_booking j
                    (fresh_session (store (snd (cancel_booking k db)))))).
Proof.
  intros Hj Hk.
  rewrite (cancel_booking_found j db bj Hj), (cancel_booking_found k db bk Hk).
  cbn [fst snd store fresh_session].
  pose proof (booking_by_id_after_update k j canceled (store db)) as Hk1.
  pose proof (booking_by_id_after_update j k canceled (store db)) as Hj1.
  rewrite Hk in Hk1. rewrite Hj in Hj1. cbn [option_map] in Hk1, Hj1.
  rewrite (cancel_booking_found k (fresh_session _) _ Hk1).
  rewrite (cancel_booking_found j (fresh_session _) _ Hj1).
  cbn [fst snd store fresh_session].
  eexists _, _, _, _. repeat (split; [reflexivity |]).
  apply update_status_swap.
Qed.

Lemma cancel_booking_commutes_witness :
  store (snd (cancel_booking 2
                (fresh_session
                   (store (snd (cancel_booking 1 (fresh_session busy_store)))))))
  = store (snd (cancel_booking 1
                  (fresh_session
                     (store (snd (cancel_booking 2
                                    (fresh_session busy_store))))))).
Proof.
  destruct (cancel_booking_commutes 1 2 (fresh_session busy_store) morning
              afternoon eq_refl eq_refl)
    as (rj & rk & rj' & rk' & _ & _ & _ & _ & H).
  exact H.
Defined.

(** ** The availability calculator *)

Lemma full_slots_succ (current_slot day_end : datetime) (m : Z) :
  0 < m ->
  current_slot + m * US_PER_MINUTE <= day_end ->
  Z.to_nat (full_slots current_slot day_end m)
  = S (Z.to_nat (full_slots (current_slot + m * US_PER_MINUTE) day_end m)).
Proof.
  unfold full_slots. intros Hm Hfit.
  assert (Hd : 0 < m * US_PER_MINUTE) by (unfold US_PER_MINUTE; lia).
  replace (day_end - current_slot)
    with ((day_end - (current_slot + m * US_PER_MINUTE))
          + 1 * (m * US_PER_MINUTE)) by lia.
  rewrite Z.div_add by lia.
  assert (0 <= (day_end - (current_slot + m * US_PER_MINUTE))
               / (m * US_PER_MINUTE)) by (apply Z.div_pos; lia).
  lia.
Qed.

Lemma full_slots_none (current_slot day_end : datetime) (m : Z) :
  0 < m ->
  day_end < current_slot + m * US_PER_MINUTE ->
  Z.to_nat (full_slots current_slot day_end m) = 0%nat.
Proof.
  unfold full_slots. intros Hm Hshort.
  assert (Hd : 0 < m * US_PER_MINUTE) by (unfold US_PER_MINUTE; lia).
  assert ((day_end - current_slot) / (m * US_PER_MINUTE) < 1)
    by (apply Z.div_lt_upper_bound; lia).
  lia.
Qed.

(** Whenever the loop is left normally, with whatever fuel, it has appended
    the free candidates and counted the full slots. *)
Lemma while_slots_exits (m : Z) (day_end : datetime) (bs : list Booking.t) :
  0 < m ->
  forall (fuel : nat) (current_slot : datetime)
         (available_slots : list Slot.t) (iterations : nat)
         (slots : list Slot.t) (k : nat),
    while_slots fuel m day_end bs current_slot available_slots iterations
      = Exits slots k ->
    slots = available_slots
            ++ filter (free_of bs)
                 (map (candidate current_slot m)
                      (seq 0 (Z.to_nat (full_slots current_slot day_end m)))) /\
    k = (iterations + Z.to_nat (full_slots current_slot day_end m))%nat.
Proof.
  intros Hm. induction fuel as [| fuel IH]; intros cur avail it slots k;
    cbn [while_slots]; [discriminate |].
  destruct (plus_minutes cur m) as [r | ex] eqn:E; cbn [try]; [| discriminate].
  apply plus_minutes_inv in E as [-> _].
  destruct (Z.leb_spec (cur + m * US_PER_MINUTE) day_end) as [Hfit | Hstop].
  - intros Hrun. apply IH in Hrun as [-> ->].
    rewrite (full_slots_succ cur day_end m Hm Hfit), candidates_unroll.
    rewrite slot_is_free_spec. cbn [filter].
    split; [| lia].
    destruct (free_of bs _); [now rewrite <- app_assoc | reflexivity].
  - intros [= <- <-]. rewrite (full_slots_none cur day_end m Hm Hstop).
    cbn. now rewrite app_nil_r, Nat.add_0_r.
Qed.

(** How the loop ends does not depend on the bookings. *)
Lemma while_slots_same_ending (m : Z) (day_end : datetime)
  (bs bs' : list Booking.t) :
  forall (fuel : nat) (current_slot : datetime)
         (available_slots available_slots' : list Slot.t) (iterations : nat),
    match while_slots fuel m day_end bs current_slot available_slots
                      iterations,
          while_slots fuel m day_end bs' current_slot available_slots'
                      iterations with
    | Exits _ k, Exits _ k' => k = k'
    | Raises ex k, Raises ex' k' => ex = ex' /\ k = k'
    | OutOfFuel, OutOfFuel => True
    | _, _ => False
    end.
Proof.
  induction fuel as [| fuel IH]; intros cur avail avail' it;
    cbn [while_slots]; [exact I |].
  destruct (plus_minutes cur m) as [r | ex]; cbn [try]; [| now split].
  destruct (r <=? day_end); [apply IH | reflexivity].
Qed.

Lemma get_availability_ok_inv
  (strptime_date strptime_time : string -> option Z)
  (rid : Z) (date : string) (m : Z) (ws we : string) (fuel : nat)
  (db : Session) (d s e : Z) (a : Availability.t) (db' : Session) :
  strptime_date date = Some d ->
  strptime_time ws = Some s -> strptime_time we = Some e ->
  0 < m ->
  get_availability strptime_date strptime_time rid date m ws we fuel db
    = Some (Ok a, db') ->
  a = Availability.mk rid date
        (filter (free_of (window_bookings rid (combine d s) (combine d e)
                                          (store db)))
                (candidate_slots (combine d s) (combine d e) m)) /\
  store db' = store db.
Proof.
  intros Hd Hs He Hm.
  destruct (accepts (booked_resource_ids (store db)) rid) eqn:Hacc.
  2:{ rewrite (get_availability_refused _ _ rid date m ws we fuel db d s e
                 Hd Hs He Hacc). discriminate. }
  rewrite (get_availability_loop_of _ _ rid date m ws we fuel db d s e
             Hd Hs He Hacc).
  unfold loop_of. cbv zeta.
  destruct (while_slots _ _ _ _ _ _ _) as [slots k | ex k |] eqn:E;
    [| discriminate | discriminate].
  apply (while_slots_exits m _ _ Hm) in E as [-> _].
  intros [= <- <-]. split; reflexivity.
Qed.

Lemma get_availability_ok_accepted
  (strptime_date strptime_time : string -> option Z)
  (rid : Z) (date : string) (m : Z) (ws we : string) (fuel : nat)
  (db : Session) (a : Availability.t) (db' : Session) :
  get_availability strptime_date strptime_time rid date m ws we fuel db
    = Some (Ok a, db') ->
  accepts (booked_resource_ids (store db)) rid = true.
Proof.
  unfold get_availability.
  destruct (strptime_date date); [| discriminate].
  destruct (strptime_time ws); [| discriminate].
  destruct (strptime_time we); [| discriminate].
  destruct (accepts _ _); [reflexivity | discriminate].
Qed.

(** X7. [get_availability] answers 400 "Invalid date/time format" exactly
    when the date or one of the two times does not parse; it does so
    whatever [slot_minutes] and the fuel are, and without a statement sent
    to the store. *)
Theorem availability_bad_format
  (strptime_date strptime_time : string -> option Z)
  (rid : Z) (date : string) (m : Z) (ws we : string) (fuel : nat)
  (db : Session) :
  (strptime_date date = None \/ strptime_time ws = None \/
   strptime_time we = None) <->
  get_availability strptime_date strptime_time rid date m ws we fuel db
    = Some (HTTPException 400 "Invalid date/time format", db).
Proof.
  unfold get_availability.
  destruct (strptime_date date) as [d |]; [| split; [reflexivity | now left]].
  destruct (strptime_time ws) as [s |];
    [| split; [reflexivity | right; now left]].
  destruct (strptime_time we) as [e |];
    [| split; [reflexivity | right; now right]].
  split; [intros [H | [H | H]]; discriminate |].
  destruct (accepts _ _); [| discriminate].
  destruct (while_slots _ _ _ _ _ _ _); discriminate.
Qed.

(** X8. [get_availability] never writes, and never looks at the resources:
    whatever it answers, the tables are as before, and the answer is the
    same on any store with the same bookings, whether the resource exists,
    is active, or not. *)
Theorem availability_reads_bookings_only
  (strptime_date strptime_time : string -> option Z)
  (rid : Z) (date : string) (m : Z) (ws we : string) (fuel : nat) :
  (forall db r db',
     get_availability strptime_date strptime_time rid date m ws we fuel db
       = Some (r, db') ->
     store db' = store db) /\
  (forall st1 st2,
     bookings st1 = bookings st2 ->
     option_map fst
       (get_availability strptime_date strptime_time rid date m ws we fuel
                         (fresh_session st1))
     = option_map fst
         (get_availability strptime_date strptime_time rid date m ws we fuel
                           (fresh_session st2))).
Proof.
  split.
  - intros db r db'. unfold get_availability.
    destruct (strptime_date date), (strptime_time ws), (strptime_time we);
      try (intros [= <- <-]; reflexivity).
    destruct (accepts _ _); [| intros [= <- <-]; reflexivity].
    destruct (while_slots _ _ _ _ _ _ _); [| | discriminate];
      intros [= <- <-]; reflexivity.
  - intros st1 st2 Hb.
    unfold get_availability, window_bookings, booked_resource_ids.
    cbn [store fresh_session]. rewrite Hb.
    destruct (strptime_date date), (strptime_time ws), (strptime_time we);
      try reflexivity.
    destruct (accepts _ _); [| reflexivity].
    destruct (while_slots _ _ _ _ _ _ _); reflexivity.
Qed.

Lemma free_of_window_iff (rid : Z) (day_start day_end : datetime) (st : Store)
  (c : Slot.t) :
  day_start <= Slot.start c -> Slot.end_ c <= day_end ->
  free_of (window_bookings rid day_start day_end st) c = true <->
  first_conflict rid (Slot.start c) (Slot.end_ c) st = None.
Proof.
  intros Hs He. rewrite free_of_spec, first_conflict_none. split.
  - intros H b Hin.
    destruct (conflicts_with rid (Slot.start c) (Slot.end_ c) b) eqn:E;
      [| reflexivity].
    apply conflicts_with_true in E as (Hr & Ha & H1 & H2).
    exfalso. apply (H b); [| lia].
    apply window_bookings_in. repeat split; auto; lia.
  - intros H b Hin [H1 H2].
    apply window_bookings_in in Hin as (Hin & Hr & Ha & _ & _).
    specialize (H b Hin).
    assert (conflicts_with rid (Slot.start c) (Slot.end_ c) b = true)
      by (apply conflicts_with_true; repeat split; auto; lia).
    congruence.
Qed.

(** X9. The calculator and the ledger agree: when [get_availability]
    answers for an active resource, a candidate slot is among the slots it
    offers exactly when [create_booking] accepts a request for that slot,
    and a candidate it does not offer is refused with 409. *)
Theorem offered_slots_are_the_bookable_ones
  (strptime_date strptime_time : string -> option Z)
  (rid : Z) (date : string) (m : Z) (ws we : string) (fuel : nat)
  (db : Session) (d s e : Z) (a : Availability.t) (db' : Session)
  (c : Slot.t) (cn : string) (now : datetime) :
  strptime_date date = Some d ->
  strptime_time ws = Some s -> strptime_time we = Some e ->
  0 < m ->
  get_availability strptime_date strptime_time rid date m ws we fuel db
    = Some (Ok a, db') ->
  bookable rid (store db) ->
  In c (candidate_slots (combine d s) (combine d e) m) ->
  (In c (Availability.available_slots a) <->
   exists nb db2,
     post_bookings rid cn (Slot.start c) (Slot.end_ c) now
                   (fresh_session (store db)) = (Ok nb, db2)) /\
  (~ In c (Availability.available_slots a) <->
   fst (post_bookings rid cn (Slot.start c) (Slot.end_ c) now
                      (fresh_session (store db)))
     = HTTPException 409 "Time slot already booked").
Proof.
  intros Hd Hs He Hm Hrun Hres Hc.
  apply (get_availability_ok_inv _ _ rid date m ws we fuel db d s e a db'
           Hd Hs He Hm) in Hrun as [-> _].
  cbn [Availability.available_slots].
  destruct (candidate_slots_partition (combine d s) (combine d e) m Hm)
    as (_ & _ & Hin & _ & _).
  destruct (Hin c Hc) as (Hlo & Hhi & Hlen).
  assert (Hlt : Slot.start c < Slot.end_ c)
    by (unfold US_PER_MINUTE in Hlen; lia).
  apply missing_or_inactive_false in Hres.
  rewrite filter_In, (free_of_window_iff rid _ _ (store db) c Hlo Hhi).
  destruct (first_conflict rid (Slot.start c) (Slot.end_ c) (store db))
    as [x |] eqn:E.
  - assert (H409 : fst (post_bookings rid cn (Slot.start c) (Slot.end_ c) now
                          (fresh_session (store db)))
                   = HTTPException 409 "Time slot already booked").
    { apply create_booking_conflict_iff; auto. now exists x. }
    split; split.
    + intros [_ H]. discriminate.
    + intros (nb & db2 & H). rewrite H in H409. discriminate.
    + intros _. exact H409.
    + intros _ [_ H]. discriminate.
  - pose proof (post_bookings_ok rid cn (Slot.start c) (Slot.end_ c) now
                  (fresh_session (store db)) Hlt Hres E) as Hok.
    split; split.
    + intros _. eexists _, _. exact Hok.
    + intros _. now split.
    + intros H. exfalso. apply H. now split.
    + rewrite Hok. discriminate.
Qed.

Lemma offered_slots_are_the_bookable_ones_witness :
  ~ In (Slot.mk (at_ jan_1_2024 10 0) (at_ jan_1_2024 11 0))
       [Slot.mk (at_ jan_1_2024 9 0) (at_ jan_1_2024 10 0)] <->
  fst (post_bookings 1 "Bob" (at_ jan_1_2024 10 0) (at_ jan_1_2024 11 0)
                     (at_ jan_1_2024 8 0) (fresh_session booked_store))
    = HTTPException 409 "Time slot already booked".
Proof.
  refine (proj2 (offered_slots_are_the_bookable_ones
                   strptime_date_sample strptime_time_sample
                   1 "2024-01-01" 60 "09:00" "11:00" 3
                   (fresh_session booked_store) jan_1_2024 (9 * 60) (11 * 60)
                   (Availability.mk 1 "2024-01-01"
                      [Slot.mk (at_ jan_1_2024 9 0) (at_ jan_1_2024 10 0)])
                   _
                   (Slot.mk (at_ jan_1_2024 10 0) (at_ jan_1_2024 11 0))
                   "Bob" (at_ jan_1_2024 8 0)
                   eq_refl eq_refl eq_refl _ eq_refl _ _)).
  - lia.
  - exists room. split; reflexivity.
  - vm_compute. right. now left.
Defined.

Lemma strongly_sorted_comparable {A} (R : A -> A -> Prop) (l : list A)
  (x y : A) :
  StronglySorted R l -> In x l -> In y l -> x = y \/ R x y \/ R y x.
Proof.
  induction 1 as [| a l Hs IH Hall]; intros Hx Hy; [contradiction |].
  rewrite Forall_forall in Hall.
  destruct Hx as [<- | Hx], Hy as [<- | Hy]; auto.
Qed.

Lemma candidates_disjoint (day_start day_end : datetime) (m : Z)
  (c c' : Slot.t) :
  0 < m ->
  In c (candidate_slots day_start day_end m) ->
  In c' (candidate_slots day_start day_end m) ->
  c' <> c ->
  Slot.end_ c' <= Slot.start c \/ Slot.end_ c <= Slot.start c'.
Proof.
  intros Hm Hc Hc' Hne.
  destruct (strongly_sorted_comparable _ _ c' c
              (candidates_chronological day_start m Hm _ 0%nat) Hc' Hc)
    as [H | [H | H]]; [contradiction | now left | now right].
Qed.

Lemma booked_resource_ids_insert (b : Booking.t) (st : Store) :
  booked_resource_ids (insert_booking b st)
  = booked_resource_ids st ++ [Booking.resource_id b].
Proof. unfold booked_resource_ids, insert_booking. cbn. apply map_app. Qed.

Lemma booked_resource_ids_update (k : Z) (status : string) (st : Store) :
  booked_resource_ids (update_status k status st) = booked_resource_ids st.
Proof.
  unfold booked_resource_ids, update_status. cbn. rewrite map_map.
  apply map_ext. intros b. now destruct (Booking.id b =? k).
Qed.

Lemma accepted_after_post (n rid : Z) (cn : string) (s e now : datetime)
  (db : Session) :
  accepts (booked_resource_ids (store db)) n = true ->
  accepts (booked_resource_ids (store (snd (post_bookings rid cn s e now db))))
          n = true.
Proof.
  intros H. destruct (post_bookings_store rid cn s e now db) as [-> | [_ ->]];
    [exact H |].
  rewrite booked_resource_ids_insert. now apply accepts_grows.
Qed.

Lemma accepted_after_cancel (n bid : Z) (db : Session) :
  accepts (booked_resource_ids (store db)) n = true ->
  accepts (booked_resource_ids (store (snd (cancel_booking bid db)))) n = true.
Proof.
  intros H. destruct (cancel_booking_store bid db) as [-> | [k ->]];
    [exact H |].
  now rewrite booked_resource_ids_update.
Qed.

Lemma get_availability_same_ending
  (strptime_date strptime_time : string -> option Z)
  (rid : Z) (date : string) (m : Z) (ws we : string) (fuel : nat)
  (db1 db2 : Session) (a : Availability.t) (db1' : Session) :
  accepts (booked_resource_ids (store db2)) rid = true ->
  get_availability strptime_date strptime_time rid date m ws we fuel db1
    = Some (Ok a, db1') ->
  exists a' db2',
    get_availability strptime_date strptime_time rid date m ws we fuel db2
      = Some (Ok a', db2').
Proof.
  intros Hacc2. unfold get_availability.
  destruct (strptime_date date) as [d |]; [| discriminate].
  destruct (strptime_time ws) as [s |]; [| discriminate].
  destruct (strptime_time we) as [e |]; [| discriminate].
  rewrite Hacc2.
  destruct (accepts (booked_resource_ids (store db1)) rid); [| discriminate].
  pose proof (while_slots_same_ending m (combine d e)
                (window_bookings rid (combine d s) (combine d e) (store db1))
                (window_bookings rid (combine d s) (combine d e) (store db2))
                fuel (combine d s) [] [] 0%nat) as H.
  destruct (while_slots fuel m (combine d e)
              (window_bookings rid _ _ (store db1)) _ _ _);
    [| discriminate | discriminate].
  destruct (while_slots fuel m (combine d e)
              (window_bookings rid _ _ (store db2)) _ _ _);
    [| contradiction | contradiction].
  intros _. eexists _, _. reflexivity.
Qed.

(** X10. Booking an offered slot takes exactly that slot off the offer: when
    [get_availability] answers and a request for one of the offered slots is
    accepted, the same availability request afterwards offers the slots
    offered before except that one. *)
Theorem booking_an_offered_slot_removes_it
  (strptime_date strptime_time : string -> option Z)
  (rid : Z) (date : string) (m : Z) (ws we : string) (fuel : nat)
  (db : Session) (d s e : Z) (a : Availability.t) (db' : Session)
  (c : Slot.t) (cn : string) (now : datetime)
  (nb : Booking.t) (db2 : Session) :
  strptime_date date = Some d ->
  strptime_time ws = Some s -> strptime_time we = Some e ->
  0 < m ->
  get_availability strptime_date strptime_time rid date m ws we fuel db
    = Some (Ok a, db') ->
  In c (Availability.available_slots a) ->
  post_bookings rid cn (Slot.start c) (Slot.end_ c) now
                (fresh_session (store db)) = (Ok nb, db2) ->
  exists a' db3,
    get_availability strptime_date strptime_time rid date m ws we fuel
                     (fresh_session (store db2)) = Some (Ok a', db3) /\
    forall c', In c' (Availability.available_slots a') <->
               In c' (Availability.available_slots a) /\ c' <> c.
Proof.
  intros Hd Hs He Hm Hrun Hc Hpost.
  assert (Hacc2 : accepts (booked_resource_ids
                             (store (fresh_session (store db2)))) rid = true).
  { pose proof (accepted_after_post rid rid cn (Slot.start c) (Slot.end_ c)
                  now (fresh_session (store db))
                  (get_availability_ok_accepted _ _ _ _ _ _ _ _ _ _ _ Hrun))
      as H.
    now rewrite Hpost in H. }
  destruct (get_availability_same_ending _ _ rid date m ws we fuel db
              (fresh_session (store db2)) a db' Hacc2 Hrun)
    as (a' & db3 & Hrun').
  exists a', db3. split; [exact Hrun' |].
  apply (get_availability_ok_inv _ _ rid date m ws we fuel db d s e a db'
           Hd Hs He Hm) in Hrun as [-> _].
  apply (get_availability_ok_inv _ _ rid date m ws we fuel _ d s e a' db3
           Hd Hs He Hm) in Hrun' as [-> _].
  cbn [Availability.available_slots store fresh_session] in *.
  apply post_bookings_ok_inv in Hpost as (Hlt & _ & _ & Hnb & Hst).
  cbn [store fresh_session] in Hst.
  apply filter_In in Hc as [Hc Hfree].
  destruct (candidate_slots_partition (combine d s) (combine d e) m Hm)
    as (_ & _ & Hin & _ & _).
  destruct (Hin c Hc) as (Hlo & Hhi & _).
  assert (Hnew : forall b,
            In b (window_bookings rid (combine d s) (combine d e) (store db2))
            <-> In b (window_bookings rid (combine d s) (combine d e)
                                      (store db)) \/ b = nb).
  { intros b. rewrite !window_bookings_in, Hst. unfold insert_booking.
    cbn [bookings]. rewrite in_app_iff. cbn [In]. split.
    - intros ([H | [<- | []]] & H'); [left; now split | now right].
    - intros [(H & H') | ->]; [split; [now left | exact H'] |].
      split; [right; now left |]. subst nb. cbn. repeat split; lia. }
  intros c'. rewrite !filter_In, !free_of_spec. split.
  - intros [Hc' Hfree']. split; [split; [exact Hc' |] |].
    + intros b Hb. apply Hfree'. apply Hnew. now left.
    + intros ->. apply (Hfree' nb); [apply Hnew; now right |].
      subst nb. cbn. lia.
  - intros [[Hc' Hfree'] Hne]. split; [exact Hc' |].
    intros b Hb. apply Hnew in Hb as [Hb | ->]; [now apply Hfree' |].
    destruct (candidates_disjoint _ _ m c c' Hm Hc Hc' Hne);
      subst nb; cbn; lia.
Qed.

Lemma booking_an_offered_slot_removes_it_witness :
  exists a' db3,
    get_availability strptime_date_sample strptime_time_sample
      1 "2024-01-01" 60 "09:00" "11:00" 3
      (fresh_session
         (store (snd (post_bookings 1 "Bob" (at_ jan_1_2024 9 0)
                        (at_ jan_1_2024 10 0) (at_ jan_1_2024 8 0)
                        (fresh_session booked_store)))))
    = Some (Ok a', db3) /\
    forall c', In c' (Availability.available_slots a') <->
               In c' [Slot.mk (at_ jan_1_2024 9 0) (at_ jan_1_2024 10 0)] /\
               c' <> Slot.mk (at_ jan_1_2024 9 0) (at_ jan_1_2024 10 0).
Proof.
  refine (booking_an_offered_slot_removes_it
            strptime_date_sample strptime_time_sample
            1 "2024-01-01" 60 "09:00" "11:00" 3
            (fresh_session booked_store) jan_1_2024 (9 * 60) (11 * 60)
            (Availability.mk 1 "2024-01-01"
               [Slot.mk (at_ jan_1_2024 9 0) (at_ jan_1_2024 10 0)])
            _
            (Slot.mk (at_ jan_1_2024 9 0) (at_ jan_1_2024 10 0))
            "Bob" (at_ jan_1_2024 8 0) _ _
            eq_refl eq_refl eq_refl _ eq_refl _ eq_refl).
  - lia.
  - now left.
Defined.

(** X11. A window shorter than one slot, a reversed window included, is no
    error: for a [resource_id] in the signed 64-bit range, parsed date and
    times and a positive [slot_minutes] larger than the minutes between
    [work_start] and [work_end], as long as [day_start] plus one slot is a
    datetime, [get_availability] answers with an empty list of slots after a
    single evaluation of the loop condition. *)
Theorem short_window_has_no_slot
  (strptime_date strptime_time : string -> option Z)
  (rid : Z) (date : string) (m : Z) (ws we : string) (fuel : nat)
  (db : Session) (d s e : Z) :
  strptime_date date = Some d -> date_in_range d ->
  strptime_time ws = Some s -> time_in_range s ->
  strptime_time we = Some e -> time_in_range e ->
  INT64_MIN <= rid <= INT64_MAX ->
  0 < m -> e - s < m ->
  combine d s + m * US_PER_MINUTE <= DATETIME_MAX ->
  get_availability strptime_date strptime_time rid date m ws we (S fuel) db
    = Some (Ok (Availability.mk rid date []),
            mkSession (store db)
              (sent db ++ [SelectWindow rid (combine d s) (combine d e)])).
Proof.
  intros Hd Hdr Hs Hsr He Her Hrid Hm Hshort Hmax.
  assert (Hq : (e - s) / m <= 0).
  { assert ((e - s) / m < 1) by (apply Z.div_lt_upper_bound; lia). lia. }
  rewrite (get_availability_loop_of _ _ rid date m ws we (S fuel) db d s e
             Hd Hs He (accepts_range _ rid Hrid)).
  rewrite (loop_of_run rid d s e m (S fuel) (store db) Hdr Hsr Her Hm) by lia.
  unfold last_bound, candidate_slots.
  rewrite (full_slots_in_minutes d s e m Hm).
  replace (Z.max 0 ((e - s) / m)) with 0 by lia.
  replace (Z.to_nat ((e - s) / m)) with 0%nat by lia.
  rewrite Z.add_0_l, Z.mul_1_l.
  destruct (Z.leb_spec (combine d s + m * US_PER_MINUTE) DATETIME_MAX);
    [reflexivity | lia].
Qed.

Lemma short_window_has_no_slot_witness :
  get_availability strptime_date_sample strptime_time_sample
    1 "2024-01-01" 30 "18:00" "09:00" 1 (fresh_session booked_store)
  = Some (Ok (Availability.mk 1 "2024-01-01" []),
          mkSession booked_store
            [SelectWindow 1 (at_ jan_1_2024 18 0) (at_ jan_1_2024 9 0)]).
Proof.
  refine (short_window_has_no_slot strptime_date_sample strptime_time_sample
            1 "2024-01-01" 30 "18:00" "09:00" 0 (fresh_session booked_store)
            jan_1_2024 (18 * 60) (9 * 60) eq_refl _ eq_refl _ eq_refl _ _ _ _
            _).
  - unfold date_in_range, jan_1_2024, DATE_MAX. lia.
  - unfold time_in_range. lia.
  - unfold time_in_range. lia.
  - unfold INT64_MIN, INT64_MAX. lia.
  - lia.
  - lia.
  - vm_compute. discriminate.
Defined.

Lemma availability_depends_on_window
  (strptime_date strptime_time : string -> option Z)
  (rid : Z) (date : string) (m : Z) (ws we : string) (fuel : nat)
  (st1 st2 : Store) :
  accepts (booked_resource_ids st1) rid
  = accepts (booked_resource_ids st2) rid ->
  (forall day_start day_end,
     window_bookings rid day_start day_end st1
     = window_bookings rid day_start day_end st2) ->
  option_map fst
    (get_availability strptime_date strptime_time rid date m ws we fuel
                      (fresh_session st1))
  = option_map fst
      (get_availability strptime_date strptime_time rid date m ws we fuel
                        (fresh_session st2)).
Proof.
  intros Hacc Hw. unfold get_availability. cbn [store fresh_session].
  destruct (strptime_date date), (strptime_time ws), (strptime_time we);
    try reflexivity.
  rewrite Hacc.
  destruct (accepts (booked_resource_ids st2) rid); [| reflexivity].
  rewrite Hw. destruct (while_slots _ _ _ _ _ _ _); reflexivity.
Qed.

Lemma accepts_other (column : list Z) (x n : Z) :
  x <> n -> accepts (column ++ [x]) n = accepts column n.
Proof.
  intros Hne. unfold accepts. rewrite existsb_app. cbn.
  apply Z.eqb_neq in Hne. rewrite Z.eqb_sym, Hne.
  now rewrite !orb_false_r.
Qed.

Lemma filter_map_unaffected {A} (p : A -> bool) (f : A -> A) (l : list A) :
  (forall x, In x l -> f x = x \/ (p (f x) = false /\ p x = false)) ->
  filter p (map f l) = filter p l.
Proof.
  induction l as [| x rest IH]; intros H; cbn; [reflexivity |].
  rewrite IH by (intros y Hy; apply H; now right).
  destruct (H x (or_introl eq_refl)) as [-> | [-> ->]]; reflexivity.
Qed.

Lemma key_determines_row {A} (key : A -> Z) (l : list A) (x y : A) :
  NoDup (map key l) -> In x l -> In y l -> key x = key y -> x = y.
Proof.
  induction l as [| a rest IH]; cbn; intros Hnd Hx Hy Hk; [contradiction |].
  apply NoDup_cons_iff in Hnd as [Hna Hnd].
  destruct Hx as [<- | Hx], Hy as [<- | Hy]; auto.
  - exfalso. apply Hna. rewrite Hk. now apply in_map.
  - exfalso. apply Hna. rewrite <- Hk. now apply in_map.
Qed.

Lemma window_bookings_insert_other (rid : Z) (day_start day_end : datetime)
  (b : Booking.t) (st : Store) :
  Booking.resource_id b <> rid ->
  window_bookings rid day_start day_end (insert_booking b st)
  = window_bookings rid day_start day_end st.
Proof.
  intros Hne. unfold window_bookings, insert_booking. cbn [bookings].
  rewrite filter_app. cbn [filter].
  apply Z.eqb_neq in Hne. rewrite Hne. cbn. now rewrite app_nil_r.
Qed.

Lemma window_bookings_cancel_other (rid : Z) (day_start day_end : datetime)
  (bid : Z) (b : Booking.t) (st : Store) :
  NoDup (map Booking.id (bookings st)) ->
  booking_by_id bid st = Some b ->
  Booking.resource_id b <> rid ->
  window_bookings rid day_start day_end (update_status bid canceled st)
  = window_bookings rid day_start day_end st.
Proof.
  intros Hnd Hb Hne. unfold window_bookings, update_status. cbn [bookings].
  f_equal. apply filter_map_unaffected. intros x Hx.
  apply booking_by_id_some in Hb as [Hin Hid].
  destruct (Z.eqb_spec (Booking.id x) bid) as [E | E]; [right | now left].
  assert (x = b) as -> by (apply (key_determines_row Booking.id _ _ _ Hnd);
                           congruence).
  apply Z.eqb_neq in Hne. cbn. now rewrite Hne.
Qed.

(** X12. Resources do not interfere: whatever a booking request for one
    resource ends in, and whenever a booking of one resource is cancelled
    (booking ids being distinct), the availability answered for any other
    resource is the same before and after. *)
Theorem availability_of_other_resources_unchanged
  (strptime_date strptime_time : string -> option Z)
  (rid' : Z) (date : string) (m : Z) (ws we : string) (fuel : nat) :
  (forall rid cn s e now db,
     rid <> rid' ->
     option_map fst
       (get_availability strptime_date strptime_time rid' date m ws we fuel
          (fresh_session (store (snd (post_bookings rid cn s e now db)))))
     = option_map fst
         (get_availability strptime_date strptime_time rid' date m ws we fuel
            (fresh_session (store db)))) /\
  (forall bid b db,
     NoDup (map Booking.id (bookings (store db))) ->
     booking_by_id bid (store db) = Some b ->
     Booking.resource_id b <> rid' ->
     option_map fst
       (get_availability strptime_date strptime_time rid' date m ws we fuel
          (fresh_session (store (snd (cancel_booking bid db)))))
     = option_map fst
         (get_availability strptime_date strptime_time rid' date m ws we fuel
            (fresh_session (store db)))).
Proof.
  split.
  - intros rid cn s e now db Hne.
    destruct (post_bookings_store rid cn s e now db) as [-> | [_ ->]];
      [reflexivity |].
    apply availability_depends_on_window.
    + rewrite booked_resource_ids_insert. now apply accepts_other.
    + intros ds de. now apply window_bookings_insert_other.
  - intros bid b db Hnd Hb Hne.
    rewrite (cancel_booking_found bid db b Hb). cbn [snd store].
    apply availability_depends_on_window.
    + now rewrite booked_resource_ids_update.
    + intros ds de.
      now apply (window_bookings_cancel_other rid' ds de bid b).
Qed.

Lemma availability_of_other_resources_unchanged_witness :
  option_map fst
    (get_availability strptime_date_sample strptime_time_sample
       2 "2024-01-01" 60 "09:00" "11:00" 3
       (fresh_session
          (store (snd (cancel_booking 1 (fresh_session booked_store))))))
  = option_map fst
      (get_availability strptime_date_sample strptime_time_sample
         2 "2024-01-01" 60 "09:00" "11:00" 3
         (fresh_session (store (fresh_session booked_store)))).
Proof.
  apply (proj2 (availability_of_other_resources_unchanged
                  strptime_date_sample strptime_time_sample
                  2 "2024-01-01" 60 "09:00" "11:00" 3)
               1 morning (fresh_session booked_store)).
  - repeat constructor. intros [].
  - reflexivity.
  - discriminate.
Defined.

(** ** The resource routes *)

Lemma next_resource_id_above (rs : list Resource.t) (r : Resource.t) :
  In r rs -> Resource.id r < next_resource_id rs.
Proof.
  unfold next_resource_id.
  induction rs as [| x rest IH]; cbn [In map fold_right]; [tauto |].
  intros [-> | Hin]; [lia |]. specialize (IH Hin). lia.
Qed.

Lemma find_app_found {A} (p : A -> bool) (l l' : list A) (y : A) :
  find p l = Some y -> find p (l ++ l') = Some y.
Proof.
  induction l as [| x rest IH]; cbn; [discriminate |].
  destruct (p x); [trivial | exact IH].
Qed.

Lemma resource_by_id_some (rid : Z) (st : Store) (r : Resource.t) :
  resource_by_id rid st = Some r -> In r (resources st) /\ Resource.id r = rid.
Proof.
  unfold resource_by_id. intros H. apply find_some in H as [Hin Hid].
  split; [exact Hin | now apply Z.eqb_eq].
Qed.

Lemma resource_by_id_none (rid : Z) (st : Store) :
  resource_by_id rid st = None <->
  forall r, In r (resources st) -> Resource.id r <> rid.
Proof.
  unfold resource_by_id. split.
  - intros H r Hin. eapply find_none in H; [| exact Hin].
    cbn in H. now apply Z.eqb_neq.
  - intros H. destruct (find _ _) as [r |] eqn:E; [| reflexivity].
    apply find_some in E as [Hin Hid]. apply Z.eqb_eq in Hid.
    now apply H in Hin.
Qed.

Lemma get_resource_run (rid : Z) (db : Session) :
  get_resource rid db =
    if accepts (resource_ids (store db)) rid
    then (match resource_by_id rid (store db) with
          | Some r => Ok r
          | None => HTTPException 404 "Resource not found"
          end,
          mkSession (store db) (sent db ++ [SelectResourceById rid]))
    else (Unhandled OverflowError, db).
Proof.
  unfold get_resource, bind, query, raise, ret. cbn.
  destruct (accepts _ _); [| reflexivity].
  destruct (resource_by_id rid (store db)); reflexivity.
Qed.

Lemma resource_by_id_new (st : Store) (r : Resource.t) :
  Resource.id r = next_resource_id (resources st) ->
  resource_by_id (Resource.id r) (mkStore (resources st ++ [r]) (bookings st))
  = Some r.
Proof.
  intros Hid. unfold resource_by_id. cbn [resources]. apply find_app_fresh.
  - intros y Hy. apply Z.eqb_neq. apply next_resource_id_above in Hy. lia.
  - apply Z.eqb_refl.
Qed.

(** X13. [create_resource] always succeeds and hands out an id no stored
    resource has; the new resource carries the request's name, type and
    active flag and is the one [get_resource] returns for that id; every
    resource found before is found unchanged, and the bookings are
    untouched. *)
Theorem create_resource_then_get (resource : ResourceCreate.t) (st : Store) :
  exists r st',
    create_resource resource st = (Ok r, st') /\
    ~ In (Resource.id r) (map Resource.id (resources st)) /\
    Resource.name r = ResourceCreate.name resource /\
    Resource.type r = ResourceCreate.type resource /\
    Resource.is_active r = Some (ResourceCreate.is_active resource) /\
    fst (get_resource (Resource.id r) (fresh_session st')) = Ok r /\
    (forall k x, resource_by_id k st = Some x -> resource_by_id k st' = Some x) /\
    bookings st' = bookings st.
Proof.
  eexists _, _. split; [reflexivity |].
  cbn [Resource.id Resource.name Resource.type Resource.is_active
       bookings resources].
  split.
  { intros H. apply in_map_iff in H as (x & Hid & Hin).
    apply next_resource_id_above in Hin. lia. }
  repeat (split; [reflexivity |]).
  split; [| split; [| reflexivity]].
  - match goal with
    | |- fst (get_resource _ (fresh_session (mkStore (_ ++ [?r]) _))) = _ =>
        pose proof (resource_by_id_new st r eq_refl) as Hfind
    end.
    cbn [Resource.id] in Hfind.
    rewrite get_resource_run. cbn [store fresh_session].
    rewrite (resource_found_accepted _ _ _ Hfind), Hfind. reflexivity.
  - intros k x Hx. unfold resource_by_id in *. cbn [resources].
    now apply find_app_found.
Qed.

(** X14. [get_resource] on an id no stored resource has answers 404
    "Resource not found" exactly when the id is in the signed 64-bit range,
    and ends in an unhandled [OverflowError] exactly when it is outside it;
    on an id a stored resource has it returns a stored resource of that id;
    in every case the tables are left as they were. *)
Theorem get_resource_found_or_404 (rid : Z) (db : Session) :
  (fst (get_resource rid db) = HTTPException 404 "Resource not found" <->
   (forall r, In r (resources (store db)) -> Resource.id r <> rid) /\
   INT64_MIN <= rid <= INT64_MAX) /\
  (fst (get_resource rid db) = Unhandled OverflowError <->
   (forall r, In r (resources (store db)) -> Resource.id r <> rid) /\
   ~ (INT64_MIN <= rid <= INT64_MAX)) /\
  (forall r, fst (get_resource rid db) = Ok r ->
             In r (resources (store db)) /\ Resource.id r = rid) /\
  ((exists r, In r (resources (store db)) /\ Resource.id r = rid) ->
   exists r, fst (get_resource rid db) = Ok r) /\
  store (snd (get_resource rid db)) = store db.
Proof.
  rewrite get_resource_run. rewrite <- resource_by_id_none.
  destruct (resource_by_id rid (store db)) as [r |] eqn:E.
  - rewrite (resource_found_accepted _ _ _ E). cbn [fst snd store].
    split; [split; [discriminate | intros [H _]; discriminate] |].
    split; [split; [discriminate | intros [H _]; discriminate] |].
    split; [| split; [| reflexivity]].
    + intros r' [= <-]. now apply resource_by_id_some.
    + intros _. now exists r.
  - pose proof (missing_key_accepted _ _ (resource_missing_not_held _ _ E))
      as [Hin Hout].
    assert (Hnone : forall P : Prop,
               (exists x, In x (resources (store db)) /\ Resource.id x = rid)
               -> P).
    { intros P (x & Hx & Hid).
      now contradiction (proj1 (resource_by_id_none rid (store db)) E x Hx). }
    destruct (accepts (resource_ids (store db)) rid) eqn:Hacc;
      cbn [fst snd store].
    + pose proof (proj1 Hin eq_refl) as Hr.
      split; [split; [intros _; now split | reflexivity] |].
      split; [split; [discriminate | intros [_ Hn]; contradiction] |].
      split; [discriminate |]. split; [apply Hnone | reflexivity].
    + pose proof (proj1 Hout eq_refl) as Hr.
      split; [split; [discriminate | intros [_ Hn]; contradiction] |].
      split; [split; [intros _; now split | reflexivity] |].
      split; [discriminate |]. split; [apply Hnone | reflexivity].
Qed.

Lemma resource_by_id_update_same (rid : Z) (n : string) (a : option bool)
  (st : Store) (res : Resource.t) :
  resource_by_id rid st = Some res ->
  resource_by_id rid (update_columns rid n a st)
  = Some (Resource.mk (Resource.id res) n (Resource.type res) a).
Proof.
  unfold resource_by_id, update_columns. cbn [resources].
  induction (resources st) as [| x rest IH]; cbn; [discriminate |].
  destruct (Resource.id x =? rid) eqn:E.
  - intros [= ->]. cbn. now rewrite E.
  - rewrite E. exact IH.
Qed.

Lemma resource_by_id_update_other (k rid : Z) (n : string) (a : option bool)
  (st : Store) :
  k <> rid ->
  resource_by_id k (update_columns rid n a st) = resource_by_id k st.
Proof.
  intros Hne. unfold resource_by_id, update_columns. cbn [resources].
  induction (resources st) as [| x rest IH]; cbn; [reflexivity |].
  destruct (Z.eqb_spec (Resource.id x) rid) as [E | E]; cbn.
  - destruct (Z.eqb_spec (Resource.id x) k); [lia | exact IH].
  - destruct (Resource.id x =? k); [reflexivity | exact IH].
Qed.

Lemma update_columns_ids (rid : Z) (n : string) (a : option bool) (st : Store) :
  map Resource.id (resources (update_columns rid n a st))
  = map Resource.id (resources st).
Proof.
  unfold update_columns. cbn [resources]. rewrite map_map.
  apply map_ext. intros r. now destruct (Resource.id r =? rid).
Qed.

Lemma update_resource_run (rid : Z) (u : ResourceUpdate.t) (st : Store)
  (res : Resource.t) :
  resource_by_id rid st = Some res ->
  update_resource rid u st =
    match ResourceUpdate.name u with
    | Some None => (inl IntegrityError, st)
    | Some (Some n) =>
        (inr (Ok (Resource.mk rid n (Resource.type res)
                    match ResourceUpdate.is_active u with
                    | Some v => v
                    | None => Resource.is_active res
                    end)),
         update_columns rid n
           match ResourceUpdate.is_active u with
           | Some v => v
           | None => Resource.is_active res
           end st)
    | None =>
        (inr (Ok (Resource.mk rid (Resource.name res) (Resource.type res)
                    match ResourceUpdate.is_active u with
                    | Some v => v
                    | None => Resource.is_active res
                    end)),
         update_columns rid (Resource.name res)
           match ResourceUpdate.is_active u with
           | Some v => v
           | None => Resource.is_active res
           end st)
    end.
Proof.
  intros Hres. unfold update_resource.
  rewrite (resource_found_accepted _ _ _ Hres), Hres. cbn [negb].
  apply resource_by_id_some in Hres as [_ ->].
  destruct (ResourceUpdate.name u) as [[n |] |]; reflexivity.
Qed.

(** X15. A successful [update_resource] changes the fields that were set
    and nothing else: a field left out of the body keeps its value, the id
    and the type never change, the updated resource is the one found under
    the id afterwards, every other resource is found as before, the set of
    resource ids is the same and the bookings are untouched. *)
Theorem update_resource_changes_set_fields_only
  (rid : Z) (u : ResourceUpdate.t) (st : Store) (res : Resource.t) :
  resource_by_id rid st = Some res ->
  ResourceUpdate.name u <> Some None ->
  exists r' st',
    update_resource rid u st = (inr (Ok r'), st') /\
    Resource.id r' = rid /\
    Resource.type r' = Resource.type res /\
    Resource.name r' = match ResourceUpdate.name u with
                       | Some (Some n) => n
                       | _ => Resource.name res
                       end /\
    Resource.is_active r' = match ResourceUpdate.is_active u with
                            | Some v => v
                            | None => Resource.is_active res
                            end /\
    resource_by_id rid st' = Some r' /\
    (forall k, k <> rid -> resource_by_id k st' = resource_by_id k st) /\
    map Resource.id (resources st') = map Resource.id (resources st) /\
    bookings st' = bookings st.
Proof.
  intros Hres Hname. rewrite (update_resource_run rid u st res Hres).
  pose proof (resource_by_id_some _ _ _ Hres) as [_ Hid].
  destruct (ResourceUpdate.name u) as [[n |] |]; [| congruence |];
    eexists _, _; (split; [reflexivity |]);
    cbn [Resource.id Resource.name Resource.type Resource.is_active];
    repeat (split; [reflexivity |]);
    (split; [rewrite (resource_by_id_update_same rid _ _ st res Hres), Hid;
             reflexivity |]);
    (split; [intros k Hk; now apply resource_by_id_update_other |]);
    (split; [apply update_columns_ids | reflexivity]).
Qed.

Lemma update_resource_changes_set_fields_only_witness :
  exists r' st',
    update_resource 2 (ResourceUpdate.mk None (Some (Some true))) sample_store
      = (inr (Ok r'), st') /\
    Resource.name r' = "Room B" /\
    Resource.is_active r' = Some true /\
    resource_by_id 1 st' = Some room.
Proof.
  destruct (update_resource_changes_set_fields_only 2
              (ResourceUpdate.mk None (Some (Some true))) sample_store
              closed_room eq_refl)
    as (r' & st' & Hrun & _ & _ & Hn & Ha & _ & Hother & _).
  - discriminate.
  - exists r', st'. split; [exact Hrun |]. split; [exact Hn |].
    split; [exact Ha |]. rewrite Hother by discriminate. reflexivity.
Defined.

(** X16. [update_resource] fails in three ways, each without a write: on an
    id no stored resource has, with 404 "Resource not found" exactly when
    the id is in the signed 64-bit range and with an unhandled
    [OverflowError] exactly when it is outside it; and with [IntegrityError]
    exactly when the resource is found and the body sets [name] to null,
    whatever else the body sets. Whenever it does not return a resource, the
    tables are as before. *)
Theorem update_resource_refusals
  (rid : Z) (u : ResourceUpdate.t) (st : Store) :
  (fst (update_resource rid u st)
     = inr (HTTPException 404 "Resource not found") <->
   (forall r, In r (resources st) -> Resource.id r <> rid) /\
   INT64_MIN <= rid <= INT64_MAX) /\
  (fst (update_resource rid u st) = inr (Unhandled OverflowError) <->
   (forall r, In r (resources st) -> Resource.id r <> rid) /\
   ~ (INT64_MIN <= rid <= INT64_MAX)) /\
  (fst (update_resource rid u st) = inl IntegrityError <->
   (exists r, In r (resources st) /\ Resource.id r = rid) /\
   ResourceUpdate.name u = Some None) /\
  ((forall r, fst (update_resource rid u st) <> inr (Ok r)) ->
   snd (update_resource rid u st) = st).
Proof.
  rewrite <- resource_by_id_none.
  destruct (resource_by_id rid st) as [res |] eqn:E.
  - rewrite (update_resource_run rid u st res E).
    pose proof (resource_by_id_some _ _ _ E) as [Hin Hid].
    destruct (ResourceUpdate.name u) as [[n |] |]; cbn [fst snd];
      (split; [split; [discriminate | intros [H _]; discriminate] |]);
      (split; [split; [discriminate | intros [H _]; discriminate] |]).
    + split.
      * split; [discriminate | intros [_ H]; discriminate].
      * intros H. now contradiction (H _ eq_refl).
    + split; [| reflexivity].
      split; [| reflexivity]. intros _. split; [now exists res | reflexivity].
    + split.
      * split; [discriminate | intros [_ H]; discriminate].
      * intros H. now contradiction (H _ eq_refl).
  - pose proof (missing_key_accepted _ _ (resource_missing_not_held _ _ E))
      as [Hin Hout].
    assert (Hnone : ~ (exists x, In x (resources st) /\ Resource.id x = rid)).
    { intros (x & Hx & Hid).
      now contradiction (proj1 (resource_by_id_none rid st) E x Hx). }
    unfold update_resource. rewrite E.
    destruct (accepts (resource_ids st) rid) eqn:Hacc; cbn [negb fst snd].
    + pose proof (proj1 Hin eq_refl) as Hr.
      split; [split; [intros _; now split | reflexivity] |].
      split; [split; [discriminate | intros [_ Hn]; contradiction] |].
      split; [| reflexivity].
      split; [discriminate | intros [Hx _]; contradiction].
    + pose proof (proj1 Hout eq_refl) as Hr.
      split; [split; [discriminate | intros [_ Hn]; contradiction] |].
      split; [split; [intros _; now split | reflexivity] |].
      split; [| reflexivity].
      split; [discriminate | intros [Hx _]; contradiction].
Qed.


Lemma update_resource_ok (rid : Z) (u : ResourceUpdate.t) (st : Store)
  (res : Resource.t) :
  resource_by_id rid st = Some res ->
  ResourceUpdate.name u <> Some None ->
  exists n,
    update_resource rid u st =
      (inr (Ok (Resource.mk rid n (Resource.type res)
                  match ResourceUpdate.is_active u with
                  | Some v => v
                  | None => Resource.is_active res
                  end)),
       update_columns rid n
         match ResourceUpdate.is_active u with
         | Some v => v
         | None => Resource.is_active res
         end st).
Proof.
  intros Hres Hname. rewrite (update_resource_run rid u st res Hres).
  destruct (ResourceUpdate.name u) as [[n |] |]; [| congruence |];
    eexists; reflexivity.
Qed.

Lemma post_bookings_inactive (rid : Z) (cn : string) (s e now : datetime)
  (db : Session) :
  s < e ->
  (exists r, resource_by_id rid (store db) = Some r /\
             Resource.is_active r <> Some true) ->
  fst (post_bookings rid cn s e now db)
    = HTTPException 400 "Resource not found or inactive".
Proof.
  intros Hlt (r & Hr & Hact). unfold post_bookings.
  rewrite (model_validate_ok rid cn s e Hlt), create_booking_run. cbn.
  rewrite (resource_found_accepted _ _ _ Hr).
  assert (Hres : missing_or_inactive (resource_by_id rid (store db)) = true).
  { apply missing_or_inactive_true. right. now exists r. }
  now rewrite Hres.
Qed.

(** X17. Deactivation is checked at booking time and does not cascade:
    after an [update_resource] that sets [is_active] to false or to null,
    every valid booking request for the resource is refused with 400 while
    the bookings already stored stay as they are; after one that sets
    [is_active] to true the resource is active for the ledger again. *)
Theorem deactivation_blocks_new_bookings_only
  (rid : Z) (u : ResourceUpdate.t) (st : Store) (res : Resource.t) :
  resource_by_id rid st = Some res ->
  ResourceUpdate.name u <> Some None ->
  bookings (snd (update_resource rid u st)) = bookings st /\
  (forall v, ResourceUpdate.is_active u = Some v -> v <> Some true ->
     forall cn s e now,
       s < e ->
       fst (post_bookings rid cn s e now
              (fresh_session (snd (update_resource rid u st))))
       = HTTPException 400 "Resource not found or inactive") /\
  (ResourceUpdate.is_active u = Some (Some true) ->
   bookable rid (snd (update_resource rid u st)) /\
   forall cn s e now,
     s < e ->
     first_conflict rid s e st = None ->
     exists nb db',
       post_bookings rid cn s e now
         (fresh_session (snd (update_resource rid u st))) = (Ok nb, db')).
Proof.
  intros Hres Hname.
  destruct (update_resource_ok rid u st res Hres Hname) as [n ->].
  cbn [snd]. split; [reflexivity |]. split.
  - intros v -> Hv cn s e now Hlt.
    apply (post_bookings_inactive rid cn s e now _ Hlt).
    cbn [store fresh_session]. eexists. split.
    + apply (resource_by_id_update_same rid n v st res Hres).
    + exact Hv.
  - intros ->.
    assert (Hb : bookable rid (update_columns rid n (Some true) st)).
    { eexists. split;
        [apply (resource_by_id_update_same rid n _ st res Hres) | reflexivity]. }
    split; [exact Hb |].
    intros cn s e now Hlt Hfree. eexists _, _.
    apply post_bookings_ok; [exact Hlt | |].
    + apply missing_or_inactive_false. exact Hb.
    + exact Hfree.
Qed.

Lemma deactivation_blocks_new_bookings_only_witness :
  bookings (snd (update_resource 1 (ResourceUpdate.mk None (Some (Some false)))
                   booked_store))
    = [morning] /\
  fst (post_bookings 1 "Bob" (at_ jan_1_2024 14 0) (at_ jan_1_2024 15 0)
         (at_ jan_1_2024 8 0)
         (fresh_session
            (snd (update_resource 1
                    (ResourceUpdate.mk None (Some (Some false)))
                    booked_store))))
    = HTTPException 400 "Resource not found or inactive".
Proof.
  destruct (deactivation_blocks_new_bookings_only 1
              (ResourceUpdate.mk None (Some (Some false))) booked_store room
              eq_refl)
    as (Hkeep & Hblock & _).
  - discriminate.
  - split; [exact Hkeep |].
    apply (Hblock (Some false) eq_refl); [discriminate | reflexivity].
Defined.

(** X18. The first booking on a new resource goes through: in a store where
    every booking refers to a stored resource, a resource created active
    accepts any request with [start_at < end_at], and a resource created
    inactive refuses it with 400. *)
Theorem new_resource_accepts_first_booking
  (resource : ResourceCreate.t) (st : Store)
  (cn : string) (s e now : datetime) :
  rows_well_formed st ->
  s < e ->
  exists r st',
    create_resource resource st = (Ok r, st') /\
    (ResourceCreate.is_active resource = true ->
     exists nb db',
       post_bookings (Resource.id r) cn s e now (fresh_session st')
         = (Ok nb, db') /\
       Booking.resource_id nb = Resource.id r /\
       Booking.status nb = active) /\
    (ResourceCreate.is_active resource = false ->
     fst (post_bookings (Resource.id r) cn s e now (fresh_session st'))
       = HTTPException 400 "Resource not found or inactive").
Proof.
  intros Hwf Hlt.
  destruct (create_resource resource st) as [res st'] eqn:Hrun.
  unfold create_resource in Hrun. injection Hrun as <- <-.
  eexists _, _. split; [reflexivity |].
  set (r := Resource.mk (next_resource_id (resources st))
              (ResourceCreate.name resource) (ResourceCreate.type resource)
              (Some (ResourceCreate.is_active resource))).
  set (st' := mkStore (resources st ++ [r]) (bookings st)).
  assert (Hfind : resource_by_id (Resource.id r) st' = Some r).
  { unfold resource_by_id. cbn [resources st']. apply find_app_fresh.
    - intros y Hy. apply Z.eqb_neq. apply next_resource_id_above in Hy.
      cbn [Resource.id r]. lia.
    - apply Z.eqb_refl. }
  split.
  - intros Hact.
    assert (Hres : missing_or_inactive
                     (resource_by_id (Resource.id r)
                        (store (fresh_session st'))) = false).
    { apply missing_or_inactive_false. exists r.
      split; [exact Hfind |]. cbn [Resource.is_active r]. now rewrite Hact. }
    assert (Hfree : first_conflict (Resource.id r) s e
                      (store (fresh_session st')) = None).
    { apply first_conflict_none. intros b Hin.
      cbn [store fresh_session st' bookings] in Hin.
      destruct (conflicts_with (Resource.id r) s e b) eqn:E; [| reflexivity].
      apply conflicts_with_true in E as (Hr & _).
      destruct Hwf as [_ Hrows].
      destruct (Hrows b Hin) as (_ & _ & x & Hx & Hxid).
      apply next_resource_id_above in Hx. cbn [Resource.id r] in Hr. lia. }
    rewrite (post_bookings_ok _ cn s e now _ Hlt Hres Hfree).
    eexists _, _. split; [reflexivity | split; reflexivity].
  - intros Hact. apply (post_bookings_inactive _ cn s e now _ Hlt).
    exists r.
    split; [exact Hfind |]. cbn [Resource.is_active r]. rewrite Hact.
    discriminate.
Qed.

Lemma new_resource_accepts_first_booking_witness :
  exists r st',
    create_resource (ResourceCreate.mk "Room C" "room" true) booked_store
      = (Ok r, st') /\
    exists nb db',
      post_bookings (Resource.id r) "Bob" (at_ jan_1_2024 10 0)
                    (at_ jan_1_2024 11 0) (at_ jan_1_2024 8 0)
                    (fresh_session st')
        = (Ok nb, db').
Proof.
  destruct (new_resource_accepts_first_booking
              (ResourceCreate.mk "Room C" "room" true) booked_store
              "Bob" (at_ jan_1_2024 10 0) (at_ jan_1_2024 11 0)
              (at_ jan_1_2024 8 0))
    as (r & st' & Hrun & Hact & _).
  - split.
    + cbn. repeat constructor; cbn; intuition discriminate.
    + intros b [<- | []]. split; [reflexivity |]. split; [now left |].
      exists room. split; [now left | reflexivity].
  - reflexivity.
  - exists r, st'. split; [exact Hrun |].
    destruct (Hact eq_refl) as (nb & db' & Hpost & _).
    now exists nb, db'.
Defined.

(** ** The whole API *)

Lemma well_kept_same_bookings (st st' : Store) :
  bookings st' = bookings st -> well_kept st -> well_kept st'.
Proof.
  unfold well_kept, no_double_booking. intros ->. trivial.
Qed.

Lemma post_bookings_store_full (rid : Z) (cn : string) (s e now : datetime)
  (db : Session) :
  store (snd (post_bookings rid cn s e now db)) = store db \/
  s < e /\
  (exists r, In r (resources (store db)) /\ Resource.id r = rid) /\
  first_conflict rid s e (store db) = None /\
  store (snd (post_bookings rid cn s e now db))
    = insert_booking
        (Booking.mk (next_id (bookings (store db))) rid cn s e active now)
        (store db).
Proof.
  destruct (post_bookings rid cn s e now db) as [[nb | c dt | | ex] db']
    eqn:Hrun.
  - apply post_bookings_ok_inv in Hrun as (Hlt & Hres & Hfree & Hnb & Hst).
    right. cbn [snd]. rewrite Hst. subst nb.
    split; [exact Hlt |]. split; [| split; [exact Hfree | reflexivity]].
    apply missing_or_inactive_false in Hres as (r & Hr & _).
    exists r. now apply resource_by_id_some.
  - left. revert Hrun. unfold post_bookings, BookingCreate.model_validate,
      BookingCreate.check_dates.
    destruct (e <=? s); [intros [= <-]; reflexivity |].
    rewrite create_booking_run. cbn.
    destruct (accepts _ _); [| discriminate].
    destruct (missing_or_inactive _); [intros [= _ _ <-]; reflexivity |].
    destruct (first_conflict rid s e (store db));
      [intros [= _ _ <-]; reflexivity | discriminate].
  - left. revert Hrun. unfold post_bookings, BookingCreate.model_validate,
      BookingCreate.check_dates.
    destruct (e <=? s); [intros [= <-]; reflexivity |].
    rewrite create_booking_run. cbn.
    destruct (accepts _ _); [| discriminate].
    destruct (missing_or_inactive _); [discriminate |].
    destruct (first_conflict rid s e (store db)); discriminate.
  - left. revert Hrun. unfold post_bookings, BookingCreate.model_validate,
      BookingCreate.check_dates.
    destruct (e <=? s); [discriminate |].
    rewrite create_booking_run. cbn.
    destruct (accepts _ _); [| intros H; now inversion H].
    destruct (missing_or_inactive _); [discriminate |].
    destruct (first_conflict rid s e (store db)); discriminate.
Qed.

Lemma rows_well_formed_insert (st : Store) (rid : Z) (cn : string)
  (s e now : datetime) :
  rows_well_formed st ->
  s < e ->
  (exists r, In r (resources st) /\ Resource.id r = rid) ->
  rows_well_formed
    (insert_booking (Booking.mk (next_id (bookings st)) rid cn s e active now)
                    st).
Proof.
  intros [Hnd Hrows] Hlt Hres. split; [exact Hnd |].
  unfold insert_booking. cbn [bookings resources].
  intros b Hb. apply in_app_iff in Hb as [Hb | [<- | []]].
  - now apply Hrows.
  - cbn. split; [exact Hlt |]. split; [now left | exact Hres].
Qed.

Lemma rows_well_formed_update_status (st : Store) (bid : Z) :
  rows_well_formed st -> rows_well_formed (update_status bid canceled st).
Proof.
  intros [Hnd Hrows]. split; [exact Hnd |].
  unfold update_status. cbn [bookings resources].
  intros b Hb. apply in_map_iff in Hb as (x & <- & Hx).
  destruct (Hrows x Hx) as (Hlt & Hst & Hres).
  destruct (Booking.id x =? bid); cbn; auto.
Qed.

Lemma rows_well_formed_create_resource (st : Store)
  (resource : ResourceCreate.t) :
  rows_well_formed st -> rows_well_formed (snd (create_resource resource st)).
Proof.
  intros [Hnd Hrows]. unfold create_resource. cbn [snd]. split.
  - cbn [resources]. rewrite map_app. apply NoDup_app; [exact Hnd | |].
    + repeat constructor. intros [].
    + intros k Hk [<- | []]. apply in_map_iff in Hk as (x & Hid & Hx).
      apply next_resource_id_above in Hx. cbn [Resource.id] in Hid. lia.
  - cbn [bookings resources]. intros b Hb.
    destruct (Hrows b Hb) as (Hlt & Hst & r & Hr & Hid).
    split; [exact Hlt |]. split; [exact Hst |].
    exists r. split; [apply in_or_app; now left | exact Hid].
Qed.

Lemma rows_well_formed_update_columns (st : Store) (rid : Z) (n : string)
  (a : option bool) :
  rows_well_formed st -> rows_well_formed (update_columns rid n a st).
Proof.
  intros [Hnd Hrows]. split; [now rewrite update_columns_ids |].
  unfold update_columns. cbn [bookings resources]. intros b Hb.
  destruct (Hrows b Hb) as (Hlt & Hst & r & Hr & Hid).
  split; [exact Hlt |]. split; [exact Hst |].
  exists (if Resource.id r =? rid
          then Resource.mk (Resource.id r) n (Resource.type r) a else r).
  split.
  - apply in_map_iff. now exists r.
  - now destruct (Resource.id r =? rid).
Qed.

Lemma update_resource_store (rid : Z) (u : ResourceUpdate.t) (st : Store) :
  snd (update_resource rid u st) = st \/
  exists n a, snd (update_resource rid u st) = update_columns rid n a st.
Proof.
  destruct (resource_by_id rid st) as [res |] eqn:E.
  - rewrite (update_resource_run rid u st res E).
    destruct (ResourceUpdate.name u) as [[n |] |]; cbn [snd];
      [right; eexists _, _; reflexivity | now left
       | right; eexists _, _; reflexivity].
  - unfold update_resource. rewrite E.
    destruct (accepts (resource_ids st) rid); now left.
Qed.

Lemma api_invariant_serve (st : Store) (r : api_request) :
  well_kept st /\ rows_well_formed st ->
  well_kept (serve_api st r) /\ rows_well_formed (serve_api st r).
Proof.
  intros [Hk Hw]. destruct r as [resource | rid u | rid cn s e now | bid];
    cbn [serve_api serve].
  - split; [| now apply rows_well_formed_create_resource].
    now apply (well_kept_same_bookings st).
  - destruct (update_resource_store rid u st) as [-> | (n & a & ->)];
      [now split |].
    split; [now apply (well_kept_same_bookings st)
           | now apply rows_well_formed_update_columns].
  - destruct (post_bookings_store_full rid cn s e now (fresh_session st))
      as [-> | (Hlt & Hres & Hfree & ->)]; [now split |].
    cbn [store fresh_session] in *.
    split; [now apply well_kept_insert | now apply rows_well_formed_insert].
  - destruct (cancel_booking_store bid (fresh_session st)) as [-> | [k ->]];
      [now split |].
    cbn [store fresh_session].
    split; [now apply well_kept_update
           | now apply rows_well_formed_update_status].
Qed.

Lemma api_invariant_serve_all (rs : list api_request) (st : Store) :
  well_kept st /\ rows_well_formed st ->
  well_kept (serve_api_all rs st) /\ rows_well_formed (serve_api_all rs st).
Proof.
  unfold serve_api_all. revert st.
  induction rs as [| r rs IH]; intros st H; cbn; [exact H |].
  apply IH. now apply api_invariant_serve.
Qed.

Lemma api_invariant_empty :
  well_kept empty_store /\ rows_well_formed empty_store.
Proof.
  unfold well_kept, rows_well_formed, no_double_booking, empty_store. cbn.
  repeat split; try constructor; intros; contradiction.
Qed.

(** X19. Over the whole API: after any sequence of resource creations,
    resource updates, booking requests and cancellations served from the
    empty store, booking ids are pairwise distinct and no two active
    bookings of one resource overlap, whatever was activated or deactivated
    in between. *)
Theorem api_never_double_books (rs : list api_request) :
  NoDup (map Booking.id (bookings (serve_api_all rs empty_store))) /\
  no_double_booking (serve_api_all rs empty_store).
Proof.
  exact (proj1 (api_invariant_serve_all rs empty_store api_invariant_empty)).
Qed.

(** X20. Over the whole API: after any such sequence, resource ids are
    pairwise distinct, and every stored booking has [start_at < end_at], a
    status that is "active" or "canceled", and a [resource_id] that is the
    id of a stored resource. *)
Theorem api_keeps_rows_well_formed (rs : list api_request) :
  NoDup (map Resource.id (resources (serve_api_all rs empty_store))) /\
  forall b, In b (bookings (serve_api_all rs empty_store)) ->
    Booking.start_at b < Booking.end_at b /\
    (Booking.status b = active \/ Booking.status b = canceled) /\
    exists r, In r (resources (serve_api_all rs empty_store)) /\
              Resource.id r = Booking.resource_id b.
Proof.
  exact (proj2 (api_invariant_serve_all rs empty_store api_invariant_empty)).
Qed.

Lemma nth_error_app_left {A} (l l' : list A) (i : nat) (x : A) :
  nth_error l i = Some x -> nth_error (l ++ l') i = Some x.
Proof.
  intros H. rewrite nth_error_app1; [exact H |].
  apply nth_error_Some. congruence.
Qed.

Lemma booking_kept_serve (st : Store) (r : api_request) (i : nat)
  (b : Booking.t) :
  nth_error (bookings st) i = Some b ->
  nth_error (bookings (serve_api st r)) i = Some b \/
  nth_error (bookings (serve_api st r)) i
    = Some (Booking.set_status canceled b).
Proof.
  intros Hb. destruct r as [resource | rid u | rid cn s e now | bid];
    cbn [serve_api serve].
  - now left.
  - destruct (update_resource_store rid u st) as [-> | (n & a & ->)];
      now left.
  - destruct (post_bookings_store rid cn s e now (fresh_session st))
      as [-> | [_ ->]]; [now left |].
    left. unfold insert_booking. cbn [bookings store fresh_session].
    now apply nth_error_app_left.
  - destruct (cancel_booking_store bid (fresh_session st)) as [-> | [k ->]];
      [now left |].
    unfold update_status. cbn [bookings store fresh_session].
    rewrite nth_error_map, Hb. cbn [option_map].
    destruct (Booking.id b =? k); [now right | now left].
Qed.

(** X21. Bookings are never deleted, moved or edited, and nothing leaves the
    status "canceled": along any sequence of API requests a stored booking
    stays at its position in the table and is either unchanged or the same
    booking with status "canceled". *)
Theorem bookings_are_kept (rs : list api_request) (st : Store) (i : nat)
  (b : Booking.t) :
  nth_error (bookings st) i = Some b ->
  nth_error (bookings (serve_api_all rs st)) i = Some b \/
  nth_error (bookings (serve_api_all rs st)) i
    = Some (Booking.set_status canceled b).
Proof.
  unfold serve_api_all. revert st b.
  induction rs as [| r rs IH]; intros st b Hb; cbn [fold_left];
    [now left |].
  destruct (booking_kept_serve st r i b Hb) as [H | H].
  - now apply IH.
  - destruct (IH _ _ H) as [H' | H']; right; exact H'.
Qed.

Lemma bookings_are_kept_witness :
  nth_error (bookings (serve_api_all
                         [PostCancel 1;
                          PostBooking 1 "Bob" (at_ jan_1_2024 10 0)
                            (at_ jan_1_2024 11 0) (at_ jan_1_2024 9 0);
                          PatchResource 1
                            (ResourceUpdate.mk None (Some (Some false)))]
                         booked_store)) 0
    = Some morning \/
  nth_error (bookings (serve_api_all
                         [PostCancel 1;
                          PostBooking 1 "Bob" (at_ jan_1_2024 10 0)
                            (at_ jan_1_2024 11 0) (at_ jan_1_2024 9 0);
                          PatchResource 1
                            (ResourceUpdate.mk None (Some (Some false)))]
                         booked_store)) 0
    = Some (Booking.set_status canceled morning).
Proof.
  apply (bookings_are_kept _ booked_store 0 morning). reflexivity.
Defined.

Lemma resource_kept_serve (st : Store) (r : api_request) (i : nat)
  (x : Resource.t) :
  nth_error (resources st) i = Some x ->
  exists x', nth_error (resources (serve_api st r)) i = Some x' /\
             Resource.id x' = Resource.id x /\
             Resource.type x' = Resource.type x.
Proof.
  intros Hx. destruct r as [resource | rid u | rid cn s e now | bid];
    cbn [serve_api serve].
  - exists x. split; [| now split]. unfold create_resource.
    cbn [snd resources]. now apply nth_error_app_left.
  - destruct (update_resource_store rid u st) as [-> | (n & a & ->)];
      [exists x; now repeat split |].
    unfold update_columns. cbn [resources].
    rewrite nth_error_map, Hx. cbn [option_map].
    eexists. split; [reflexivity |].
    destruct (Resource.id x =? rid); now split.
  - exists x. split; [| now split].
    destruct (post_bookings_store rid cn s e now (fresh_session st))
      as [-> | [_ ->]]; exact Hx.
  - exists x. split; [| now split].
    destruct (cancel_booking_store bid (fresh_session st)) as [-> | [k ->]];
      exact Hx.
Qed.

(** X22. Resources are never deleted or moved, and neither the id nor the
    type of a resource ever changes: along any sequence of API requests a
    stored resource stays at its position in the table with the same id and
    the same type. *)
Theorem resources_are_kept (rs : list api_request) (st : Store) (i : nat)
  (x : Resource.t) :
  nth_error (resources st) i = Some x ->
  exists x', nth_error (resources (serve_api_all rs st)) i = Some x' /\
             Resource.id x' = Resource.id x /\
             Resource.type x' = Resource.type x.
Proof.
  unfold serve_api_all. revert st x.
  induction rs as [| r rs IH]; intros st x Hx; cbn [fold_left].
  - exists x. now repeat split.
  - destruct (resource_kept_serve st r i x Hx) as (x1 & H1 & Hid1 & Hty1).
    destruct (IH _ _ H1) as (x' & H' & Hid & Hty).
    exists x'. split; [exact H' |]. split; congruence.
Qed.

Lemma resources_are_kept_witness :
  exists x',
    nth_error (resources (serve_api_all
                            [PatchResource 1
                               (ResourceUpdate.mk (Some (Some "Hall"))
                                                  (Some None));
                             PostResource
                               (ResourceCreate.mk "Room C" "room" true)]
                            sample_store)) 0
      = Some x' /\
    Resource.id x' = Resource.id room /\
    Resource.type x' = Resource.type room.
Proof.
  apply (resources_are_kept _ sample_store 0 room). reflexivity.
Defined.

(** ** Failure paths, listing and monotonicity *)

(** X23. The failure paths of the ledger do not write: whenever
    [create_booking] (behind its validation) or [cancel_booking] ends in
    anything but a returned booking, be it a validation error, an HTTP
    error or the [OverflowError] of an id that cannot be bound, the tables
    are exactly as before. *)
Theorem ledger_failures_do_not_write :
  (forall rid cn s e now db,
     (forall nb, fst (post_bookings rid cn s e now db) <> Ok nb) ->
     store (snd (post_bookings rid cn s e now db)) = store db) /\
  (forall bid db,
     (forall b, fst (cancel_booking bid db) <> Ok b) ->
     store (snd (cancel_booking bid db)) = store db).
Proof.
  split.
  - intros rid cn s e now db.
    unfold post_bookings, BookingCreate.model_validate,
      BookingCreate.check_dates.
    destruct (e <=? s); [reflexivity |].
    rewrite create_booking_run. cbn.
    destruct (accepts _ _); [| reflexivity].
    destruct (missing_or_inactive _); [reflexivity |].
    destruct (first_conflict rid s e (store db)); [reflexivity |].
    cbn. intros H. now contradiction (H _ eq_refl).
  - intros bid db H. rewrite cancel_booking_run in *.
    destruct (booking_by_id bid (store db)).
    + now contradiction (H _ eq_refl).
    + destruct (accepts _ _); reflexivity.
Qed.

(** X24. A booking that was accepted is listed: after a successful request,
    listing without filters and listing with [status = "active"] both hold
    the returned booking, and so does listing by its resource id when that
    id is not 0. *)
Theorem accepted_booking_is_listed
  (rid : Z) (cn : string) (s e now : datetime) (db : Session)
  (nb : Booking.t) (db1 : Session) :
  post_bookings rid cn s e now db = (Ok nb, db1) ->
  exists all act,
    fst (get_bookings None None None None (fresh_session (store db1)))
      = Ok all /\
    fst (get_bookings None None None (Some active)
                      (fresh_session (store db1))) = Ok act /\
    In nb all /\ In nb act /\
    (rid <> 0 ->
     exists mine,
       fst (get_bookings (Some rid) None None None
                         (fresh_session (store db1))) = Ok mine /\
       In nb mine).
Proof.
  intros Hrun.
  apply post_bookings_ok_inv in Hrun as (_ & _ & _ & Hnb & Hst).
  assert (Hin : In nb (bookings (store db1))).
  { rewrite Hst. unfold insert_booking. cbn [bookings].
    apply in_or_app. right. now left. }
  eexists _, _. split; [reflexivity |]. split; [reflexivity |].
  split; [| split].
  - apply select_bookings_in. split; [exact Hin | reflexivity].
  - apply select_bookings_in. split; [exact Hin |]. subst nb. reflexivity.
  - intros Hne.
    assert (Hacc : accepts (booked_resource_ids (store db1)) rid = true).
    { apply accepts_in. unfold booked_resource_ids. apply in_map_iff.
      exists nb. split; [subst nb; reflexivity | exact Hin]. }
    exists (select_bookings (Some rid) None None None (store db1)). split.
    { unfold get_bookings, query. cbn [store fresh_session fst].
      rewrite Hacc, orb_true_r. reflexivity. }
    apply select_bookings_in. split; [exact Hin |].
    unfold satisfies, effective_id. apply Z.eqb_neq in Hne. rewrite Hne.
    subst nb. cbn. now rewrite Z.eqb_refl.
Qed.

Lemma accepted_booking_is_listed_witness :
  exists all act,
    fst (get_bookings None None None None
           (fresh_session
              (store (snd (post_bookings 1 "Cy" (at_ jan_1_2024 11 0)
                             (at_ jan_1_2024 12 0) (at_ jan_1_2024 8 0)
                             (fresh_session booked_store))))))
      = Ok all /\
    fst (get_bookings None None None (Some active)
           (fresh_session
              (store (snd (post_bookings 1 "Cy" (at_ jan_1_2024 11 0)
                             (at_ jan_1_2024 12 0) (at_ jan_1_2024 8 0)
                             (fresh_session booked_store))))))
      = Ok act /\
    In afternoon all /\ In afternoon act.
Proof.
  destruct (accepted_booking_is_listed 1 "Cy" (at_ jan_1_2024 11 0)
              (at_ jan_1_2024 12 0) (at_ jan_1_2024 8 0)
              (fresh_session booked_store) afternoon _ eq_refl)
    as (all & act & Hall & Hact & Hin1 & Hin2 & _).
  exists all, act. repeat split; assumption.
Defined.

Lemma free_of_subset (bs bs' : list Booking.t) (c : Slot.t) :
  (forall b, In b bs' -> In b bs) ->
  free_of bs c = true -> free_of bs' c = true.
Proof.
  rewrite !free_of_spec. intros Hsub H b Hb. apply H. now apply Hsub.
Qed.

(** X25. Availability is monotone in the ledger: when [get_availability]
    answers before and after, a cancellation never takes an offered slot
    away, and a booking request, whatever it ends in, never adds one. *)
Theorem availability_is_monotone
  (strptime_date strptime_time : string -> option Z)
  (rid : Z) (date : string) (m : Z) (ws we : string) (fuel : nat)
  (db : Session) (a : Availability.t) (db' : Session) :
  0 < m ->
  get_availability strptime_date strptime_time rid date m ws we fuel db
    = Some (Ok a, db') ->
  (forall bid,
   exists a1 db1,
     get_availability strptime_date strptime_time rid date m ws we fuel
       (fresh_session (store (snd (cancel_booking bid db))))
       = Some (Ok a1, db1) /\
     forall c, In c (Availability.available_slots a) ->
               In c (Availability.available_slots a1)) /\
  (forall rid2 cn s e now,
   exists a2 db2,
     get_availability strptime_date strptime_time rid date m ws we fuel
       (fresh_session (store (snd (post_bookings rid2 cn s e now db))))
       = Some (Ok a2, db2) /\
     forall c, In c (Availability.available_slots a2) ->
               In c (Availability.available_slots a)).
Proof.
  intros Hm Hrun.
  assert (Hparse : exists d s e,
            strptime_date date = Some d /\ strptime_time ws = Some s /\
            strptime_time we = Some e).
  { revert Hrun. unfold get_availability.
    destruct (strptime_date date) as [d |]; [| discriminate].
    destruct (strptime_time ws) as [s |]; [| discriminate].
    destruct (strptime_time we) as [e |]; [| discriminate].
    intros _. now exists d, s, e. }
  destruct Hparse as (d & s & e & Hd & Hs & He).
  pose proof (get_availability_ok_inv _ _ rid date m ws we fuel db d s e a db'
                Hd Hs He Hm Hrun) as [-> _].
  cbn [Availability.available_slots].
  pose proof (get_availability_ok_accepted _ _ rid date m ws we fuel db _ db'
                Hrun) as Hacc.
  split.
  - intros bid.
    destruct (get_availability_same_ending _ _ rid date m ws we fuel db
                (fresh_session (store (snd (cancel_booking bid db)))) _ db'
                (accepted_after_cancel rid bid db Hacc)
                Hrun) as (a1 & db1 & Hrun1).
    exists a1, db1. split; [exact Hrun1 |].
    apply (get_availability_ok_inv _ _ rid date m ws we fuel _ d s e a1 db1
             Hd Hs He Hm) in Hrun1 as [-> _].
    cbn [Availability.available_slots store fresh_session].
    intros c Hc. apply filter_In in Hc as [Hc Hfree].
    apply filter_In. split; [exact Hc |].
    revert Hfree. apply free_of_subset. intros b Hb.
    apply window_bookings_in in Hb as (Hin & Hr & Ha & H1 & H2).
    apply window_bookings_in. repeat split; auto.
    destruct (cancel_booking_store bid db) as [Hst | [k Hst]];
      rewrite Hst in Hin; [exact Hin |].
    now apply (update_status_active_in k (store db) b Hin).
  - intros rid2 cn s2 e2 now.
    destruct (get_availability_same_ending _ _ rid date m ws we fuel db
                (fresh_session
                   (store (snd (post_bookings rid2 cn s2 e2 now db)))) _ db'
                (accepted_after_post rid rid2 cn s2 e2 now db Hacc)
                Hrun) as (a2 & db2 & Hrun2).
    exists a2, db2. split; [exact Hrun2 |].
    apply (get_availability_ok_inv _ _ rid date m ws we fuel _ d s e a2 db2
             Hd Hs He Hm) in Hrun2 as [-> _].
    cbn [Availability.available_slots store fresh_session].
    intros c Hc. apply filter_In in Hc as [Hc Hfree].
    apply filter_In. split; [exact Hc |].
    revert Hfree. apply free_of_subset. intros b Hb.
    apply window_bookings_in in Hb as (Hin & Hr & Ha & H1 & H2).
    apply window_bookings_in. repeat split; auto.
    destruct (post_bookings_store rid2 cn s2 e2 now db) as [-> | [_ ->]];
      [exact Hin |].
    unfold insert_booking. cbn [bookings]. apply in_or_app. now left.
Qed.

Lemma availability_is_monotone_witness :
  exists a1 db1,
    get_availability strptime_date_sample strptime_time_sample
      1 "2024-01-01" 60 "09:00" "11:00" 3
      (fresh_session
         (store (snd (cancel_booking 1 (fresh_session booked_store)))))
    = Some (Ok a1, db1) /\
    forall c,
      In c [Slot.mk (at_ jan_1_2024 9 0) (at_ jan_1_2024 10 0)] ->
      In c (Availability.available_slots a1).
Proof.
  refine (proj1 (availability_is_monotone
                   strptime_date_sample strptime_time_sample
                   1 "2024-01-01" 60 "09:00" "11:00" 3
                   (fresh_session booked_store)
                   (Availability.mk 1 "2024-01-01"
                      [Slot.mk (at_ jan_1_2024 9 0) (at_ jan_1_2024 10 0)])
                   _ _ eq_refl) 1).
  lia.
Defined.
